(** * WebTestBot: the bot test-run lifecycle and the configuration bounds

    A shallow embedding of [python_bot/config/models.py] and
    [python_bot/core/bot.py].

    The browser engine, the observer callback and the wall clock are external
    to the program: they are an [Oracle] that answers every call the program
    makes.  The answer may depend on the call and on the number of events
    that happened before it, so any behaviour of the outside world, failing
    or not, is one oracle.  Every theorem about the run is quantified over
    all oracles.  The calls and their answers are recorded in a trace, which
    is how the theorems speak of what a run did.

    Conventions of the model:
    - Python exceptions are the subclasses of [Exception]; interruption of
      the whole process ([KeyboardInterrupt], task cancellation) is outside
      the model.  [print], [str] and attribute reads do not raise.
    - [await] is sequencing: one bot owns its session and its report, and
      nothing else touches them during a run.
    - A Playwright object is its identity; an object is truthy, [None] is not.
    - Instants are integers (microseconds) and durations are rationals; the
      rounding of floats is not modelled.
    - The [BotReport] of a run is one mutable object: it lives in the state,
      so what was appended before an exception is still there after it. *)

From Stdlib Require Import ZArith QArith Qround List String Lia.
From stdpp Require Import base gmap strings list pretty.

(** ** Python values and exceptions *)

(** The values that action dictionaries and page data carry.  The program
    never looks inside them except to compare an action kind with a string
    and to format them in messages. *)
Inductive PyVal :=
| VNone
| VBool (b : bool)
| VInt (z : Z)
| VStr (s : string)
| VOther (repr : string).

(** [str(v)], as used by f-strings. *)
Definition py_str (v : PyVal) : string :=
  match v with
  | VNone => "None"
  | VBool true => "True"
  | VBool false => "False"
  | VInt z => pretty z
  | VStr s => s
  | VOther repr => repr
  end.

Inductive exn :=
| RuntimeError (msg : string)
| KeyError (key : string)
| TypeError (msg : string)
| AttributeError (msg : string)
| ValidationError (locs : list string)
| EngineError (msg : string)
| ObserverError (msg : string).

(** [str(error)]. *)
Definition str_exn (e : exn) : string :=
  match e with
  | RuntimeError msg => msg
  | KeyError key => "'" +:+ key +:+ "'"
  | TypeError msg => msg
  | AttributeError msg => msg
  | ValidationError locs => "validation error for " +:+ String.concat ", " locs
  | EngineError msg => msg
  | ObserverError msg => msg
  end.

Inductive Result (A : Type) :=
| Ok (a : A)
| Raise (e : exn).
Arguments Ok {A} a.
Arguments Raise {A} e.

Definition is_ok {A} (r : Result A) : bool :=
  match r with Ok _ => true | Raise _ => false end.

(** ** config/models.py *)
Module Config.
Local Open Scope Z_scope.

(** [Field(default=d, ge=lo, le=hi)]; a bound that is not given is [None]. *)
Record Field := mkField { default_value : Z; ge : option Z; le : option Z }.

Definition satisfies (f : Field) (v : Z) : bool :=
  match ge f with Some lo => lo <=? v | None => true end
  && match le f with Some hi => v <=? hi | None => true end.

(** Validation of one keyword argument: an argument that is not supplied
    takes the default; a supplied one is kept as it is and reported under
    its name when it breaks a bound. *)
Definition validate (name : string) (f : Field) (arg : option Z) : Z * list string :=
  match arg with
  | None => (default_value f, [])
  | Some v => (v, if satisfies f v then [] else [name])
  end.

Definition construct {A} (errs : list string) (a : A) : Result A :=
  match errs with
  | [] => Ok a
  | _ :: _ => Raise (ValidationError errs)
  end.

(** *** ViewportConfig *)
Record ViewportConfig := { width : Z; height : Z }.
Definition width_field := mkField 1366 (Some 800) (Some 3840).
Definition height_field := mkField 768 (Some 600) (Some 2160).

Definition ViewportConfig_new (w h : option Z) : Result ViewportConfig :=
  let '(w', e1) := validate "width" width_field w in
  let '(h', e2) := validate "height" height_field h in
  construct (e1 ++ e2) {| width := w'; height := h' |}.

(** *** BrowserConfig *)
Record BrowserConfig := { headless : bool; browser_timeout : Z; args : list string }.
Definition browser_timeout_field := mkField 60000 (Some 5000) (Some 120000).
Definition default_args : list string :=
  ["--no-sandbox"; "--disable-dev-shm-usage"; "--disable-gpu"]%string.

Definition BrowserConfig_new (hl : option bool) (t : option Z) (a : option (list string))
  : Result BrowserConfig :=
  let '(t', e1) := validate "timeout" browser_timeout_field t in
  construct e1 {| headless := default true hl; browser_timeout := t';
                  args := default default_args a |}.

(** *** ContextConfig *)
Record ContextConfig :=
  { user_agent : string; viewport : ViewportConfig; context_timeout : Z }.
Definition context_timeout_field := mkField 30000 (Some 5000) (Some 60000).
Definition default_user_agent : string :=
  "Mozilla/5.0 (Windows NT 10.0; Win64; x64) AppleWebKit/537.36 (KHTML, like Gecko) Chrome/120.0.0.0 Safari/537.36".
Definition default_viewport : ViewportConfig :=
  {| width := default_value width_field; height := default_value height_field |}.

Definition ContextConfig_new (ua : option string) (vp : option ViewportConfig) (t : option Z)
  : Result ContextConfig :=
  let '(t', e1) := validate "timeout" context_timeout_field t in
  construct e1 {| user_agent := default default_user_agent ua;
                  viewport := default default_viewport vp;
                  context_timeout := t' |}.

(** *** PageConfig *)
Inductive WaitUntil := Load | DomContentLoaded | NetworkIdle.
Record PageConfig :=
  { default_timeout : Z; navigation_timeout : Z; wait_until : WaitUntil }.
Definition default_timeout_field := mkField 30000 (Some 5000) (Some 60000).
Definition navigation_timeout_field := mkField 30000 (Some 5000) (Some 60000).

Definition PageConfig_new (dt nt : option Z) (wu : option WaitUntil) : Result PageConfig :=
  let '(dt', e1) := validate "default_timeout" default_timeout_field dt in
  let '(nt', e2) := validate "navigation_timeout" navigation_timeout_field nt in
  construct (e1 ++ e2)
    {| default_timeout := dt'; navigation_timeout := nt';
       wait_until := default NetworkIdle wu |}.

(** *** ConcurrencyConfig *)
Record ConcurrencyConfig := { max_bots : Z; min_bots : Z; default_bots : Z }.
Definition max_bots_field := mkField 10 (Some 1) (Some 100).
Definition min_bots_field := mkField 1 (Some 1) None.
Definition default_bots_field := mkField 1 (Some 1) None.

Definition ConcurrencyConfig_new (mx mn df : option Z) : Result ConcurrencyConfig :=
  let '(mx', e1) := validate "max_bots" max_bots_field mx in
  let '(mn', e2) := validate "min_bots" min_bots_field mn in
  let '(df', e3) := validate "default_bots" default_bots_field df in
  construct (e1 ++ e2 ++ e3) {| max_bots := mx'; min_bots := mn'; default_bots := df' |}.

(** *** ActionConfig *)
Record ActionConfig := { enabled : bool; wait_time : Z }.
Definition wait_time_field := mkField 1000 (Some 0) (Some 10000).

Definition ActionConfig_new (en : option bool) (wt : option Z) : Result ActionConfig :=
  let '(wt', e1) := validate "wait_time" wait_time_field wt in
  construct e1 {| enabled := default true en; wait_time := wt' |}.

(** *** TestingConfig.  The syntax check of [default_url] ([HttpUrl]) is
    pydantic's own and is not modelled; its value is kept as a string. *)
Record TestingConfig :=
  { default_url : string; retry_attempts : Z; retry_delay : Z;
    scroll : ActionConfig; link_click : ActionConfig; form_interaction : ActionConfig }.
Definition retry_attempts_field := mkField 3 (Some 0) (Some 10).
Definition retry_delay_field := mkField 1000 (Some 100) (Some 10000).

Definition TestingConfig_new (url : option string) (ra rd : option Z)
    (sc lc fi : option ActionConfig) : Result TestingConfig :=
  let '(ra', e1) := validate "retry_attempts" retry_attempts_field ra in
  let '(rd', e2) := validate "retry_delay" retry_delay_field rd in
  construct (e1 ++ e2)
    {| default_url := default "https://hasanarthuraltuntas.com.tr"%string url;
       retry_attempts := ra'; retry_delay := rd';
       scroll := default {| enabled := true; wait_time := default_value wait_time_field |} sc;
       link_click := default {| enabled := true; wait_time := 2000 |} lc;
       form_interaction := default {| enabled := true; wait_time := 500 |} fi |}.

(** *** BotConfig *)
Record BotConfig :=
  { browser : BrowserConfig; context : ContextConfig; page : PageConfig;
    concurrency : ConcurrencyConfig; testing : TestingConfig }.

Definition default_BrowserConfig : BrowserConfig :=
  {| headless := true; browser_timeout := default_value browser_timeout_field;
     args := default_args |}.
Definition default_ContextConfig : ContextConfig :=
  {| user_agent := default_user_agent; viewport := default_viewport;
     context_timeout := default_value context_timeout_field |}.
Definition default_PageConfig : PageConfig :=
  {| default_timeout := default_value default_timeout_field;
     navigation_timeout := default_value navigation_timeout_field;
     wait_until := NetworkIdle |}.
Definition default_ConcurrencyConfig : ConcurrencyConfig :=
  {| max_bots := default_value max_bots_field; min_bots := default_value min_bots_field;
     default_bots := default_value default_bots_field |}.
Definition default_TestingConfig : TestingConfig :=
  {| default_url := "https://hasanarthuraltuntas.com.tr";
     retry_attempts := default_value retry_attempts_field;
     retry_delay := default_value retry_delay_field;
     scroll := {| enabled := true; wait_time := default_value wait_time_field |};
     link_click := {| enabled := true; wait_time := 2000 |};
     form_interaction := {| enabled := true; wait_time := 500 |} |}.

Definition BotConfig_new (b : option BrowserConfig) (c : option ContextConfig)
    (p : option PageConfig) (cc : option ConcurrencyConfig) (t : option TestingConfig)
  : BotConfig :=
  {| browser := default default_BrowserConfig b;
     context := default default_ContextConfig c;
     page := default default_PageConfig p;
     concurrency := default default_ConcurrencyConfig cc;
     testing := default default_TestingConfig t |}.

(** A supplied argument is accepted when it meets the bounds of its field;
    an argument that is not supplied is replaced by the default. *)
Definition accepted (f : Field) (arg : option Z) : Prop :=
  match arg with
  | None => True
  | Some v => satisfies f v = true
  end.

End Config.

(** ** core/bot.py *)
Module Bot.
Import Config.

(** *** Data model *)

Record ActionResult :=
  { action_type : string; status : string; message : string;
    timestamp : Z; details : option (gmap string PyVal) }.

(** All twelve fields are required keyword arguments; a dataclass does not
    check the types of the values it stores. *)
Record PageAnalysis :=
  { title : PyVal; url : PyVal; link_count : PyVal; form_count : PyVal;
    button_count : PyVal; input_count : PyVal; image_count : PyVal;
    has_service_worker : PyVal; pa_viewport : PyVal; scroll_height : PyVal;
    links : PyVal; forms : PyVal }.

(** An entry of [report.errors]: a dictionary with the keys ['type'],
    ['message'], ['timestamp'] and, for a custom action, ['action'].
    [err_action = None] is the absent key; [Some VNone] is the key bound
    to [None]. *)
Record ErrorEntry :=
  { err_type : string; err_action : option PyVal;
    err_message : string; err_timestamp : Z }.

Record BotReport :=
  { success : bool; actions : list ActionResult; errors : list ErrorEntry;
    analysis : option PageAnalysis; performance : gmap string Q }.

(** [BotReport(success=b)] *)
Definition BotReport_new (b : bool) : BotReport :=
  {| success := b; actions := []; errors := []; analysis := None; performance := ∅ |}.

(** Playwright objects are known by their identity. *)
Definition handle := nat.
Definition callback := nat.

(** [response.request.timing] *)
Record Response := { timing : gmap string Q }.

(** What [page.evaluate] hands back: a mapping, or something else. *)
Inductive JsValue :=
| JsObject (d : gmap string PyVal)
| JsOther (v : PyVal).

(** The dictionary passed to the observer. *)
Record Update :=
  { upd_type : string; upd_message : string;
    upd_url : option string; upd_analysis : option PageAnalysis }.

Definition Action := gmap string PyVal.

(** *** The outside world *)

Inductive Resource := RPage | RContext | RBrowser | REngine.

Inductive AcquireCall :=
| PlaywrightStart
| ChromiumLaunch (engine : handle) (headless : bool) (timeout : Z) (args : list string)
| NewContext (browser : handle) (user_agent : string) (width height : Z)
| NewPage (context : handle).

Inductive UnitCall :=
| SetDefaultTimeout (page : handle) (t : Z)
| WaitForTimeout (page : handle) (ms : PyVal)
| Click (page : handle) (selector : PyVal)
| Fill (page : handle) (selector text : PyVal)
| Close (r : Resource) (h : handle)
| OnUpdate (cb : callback) (u : Update).

Inductive Event :=
| EvAcquire (c : AcquireCall) (r : Result (option handle))
| EvGoto (page : handle) (url : string) (wait_until : WaitUntil) (timeout : Z)
    (r : Result (option Response))
| EvEvaluate (page : handle) (script : string) (r : Result JsValue)
| EvDo (c : UnitCall) (r : Result unit)
| EvNow (t : Z)
| EvPageUrl (page : handle) (u : string)
| EvPrint (line : string).

(** Every field takes the number of events so far and the call. *)
Record Oracle :=
  { acquire : nat → AcquireCall → Result (option handle);
    goto : nat → handle → string → WaitUntil → Z → Result (option Response);
    evaluate : nat → handle → string → Result JsValue;
    perform : nat → UnitCall → Result unit;
    clock : nat → Z;
    page_url : nat → handle → string }.

(** *** The bot and the store *)

Record WebBot :=
  { config : BotConfig;
    _browser : option handle; _context : option handle;
    _page : option handle; _playwright : option handle }.

(** [WebBot(config)] *)
Definition WebBot_new (cfg : option BotConfig) : WebBot :=
  {| config := default (BotConfig_new None None None None None) cfg;
     _browser := None; _context := None; _page := None; _playwright := None |}.

(** [report] is the one [BotReport] object of the run in progress: it is
    mutated in place, so what was appended before an exception stays. *)
Record State := mkState { self : WebBot; report : BotReport; trace : list Event }.

Definition set_handle (r : Resource) (h : option handle) (b : WebBot) : WebBot :=
  match r with
  | RPage => {| config := config b; _browser := _browser b; _context := _context b;
                _page := h; _playwright := _playwright b |}
  | RContext => {| config := config b; _browser := _browser b; _context := h;
                   _page := _page b; _playwright := _playwright b |}
  | RBrowser => {| config := config b; _browser := h; _context := _context b;
                   _page := _page b; _playwright := _playwright b |}
  | REngine => {| config := config b; _browser := _browser b; _context := _context b;
                  _page := _page b; _playwright := h |}
  end.

Definition get_handle (r : Resource) (b : WebBot) : option handle :=
  match r with
  | RPage => _page b
  | RContext => _context b
  | RBrowser => _browser b
  | REngine => _playwright b
  end.

Definition add_action (a : ActionResult) (r : BotReport) : BotReport :=
  {| success := success r; actions := actions r ++ [a]; errors := errors r;
     analysis := analysis r; performance := performance r |}.
Definition add_error (e : ErrorEntry) (r : BotReport) : BotReport :=
  {| success := success r; actions := actions r; errors := errors r ++ [e];
     analysis := analysis r; performance := performance r |}.
Definition set_analysis (a : PageAnalysis) (r : BotReport) : BotReport :=
  {| success := success r; actions := actions r; errors := errors r;
     analysis := Some a; performance := performance r |}.
Definition set_performance (k : string) (v : Q) (r : BotReport) : BotReport :=
  {| success := success r; actions := actions r; errors := errors r;
     analysis := analysis r; performance := <[k := v]> (performance r) |}.
Definition set_success (b : bool) (r : BotReport) : BotReport :=
  {| success := b; actions := actions r; errors := errors r;
     analysis := analysis r; performance := performance r |}.

(** *** State and exceptions *)

Definition M (A : Type) : Type := State → Result A * State.

#[export] Instance M_ret : MRet M := λ A a s, (Ok a, s).
#[export] Instance M_bind : MBind M := λ A B f m s,
  match m s with
  | (Ok a, s') => f a s'
  | (Raise e, s') => (Raise e, s')
  end.

Definition raise {A} (e : exn) : M A := λ s, (Raise e, s).

(** [try: body / except Exception as error: handler] *)
Definition try_except {A} (body : M A) (handler : exn → M A) : M A := λ s,
  match body s with
  | (Ok a, s') => (Ok a, s')
  | (Raise e, s') => handler e s'
  end.

(** [try: body / finally: fin] *)
Definition finally {A} (body : M A) (fin : M unit) : M A := λ s,
  let '(r, s') := body s in
  match fin s' with
  | (Ok _, s'') => (r, s'')
  | (Raise e, s'') => (Raise e, s'')
  end.

Fixpoint for_each {A} (l : list A) (body : A → M unit) : M unit :=
  match l with
  | [] => mret tt
  | x :: l' => body x;; for_each l' body
  end.

Definition emit_to (ev : Event) (s : State) : State :=
  {| self := self s; report := report s; trace := trace s ++ [ev] |}.

Definition get_self {A} (f : WebBot → A) : M A := λ s, (Ok (f (self s)), s).
Definition modify_self (f : WebBot → WebBot) : M unit := λ s,
  (Ok tt, {| self := f (self s); report := report s; trace := trace s |}).
Definition get_report : M BotReport := λ s, (Ok (report s), s).
Definition modify_report (f : BotReport → BotReport) : M unit := λ s,
  (Ok tt, {| self := self s; report := f (report s); trace := trace s |}).

(** [print(line)] *)
Definition print (line : string) : M unit := λ s, (Ok tt, emit_to (EvPrint line) s).

Section Run.
Variable O : Oracle.

Definition call_acquire (c : AcquireCall) : M (option handle) := λ s,
  let r := acquire O (length (trace s)) c in (r, emit_to (EvAcquire c r) s).

Definition call_goto (page : handle) (url : string) (wu : WaitUntil) (t : Z)
  : M (option Response) := λ s,
  let r := goto O (length (trace s)) page url wu t in
  (r, emit_to (EvGoto page url wu t r) s).

Definition call_evaluate (page : handle) (script : string) : M JsValue := λ s,
  let r := evaluate O (length (trace s)) page script in
  (r, emit_to (EvEvaluate page script r) s).

Definition call_do (c : UnitCall) : M unit := λ s,
  let r := perform O (length (trace s)) c in (r, emit_to (EvDo c r) s).

(** [datetime.now()], in microseconds. *)
Definition now : M Z := λ s,
  let t := clock O (length (trace s)) in (Ok t, emit_to (EvNow t) s).

(** [self._page.url] *)
Definition read_url (page : handle) : M string := λ s,
  let u := page_url O (length (trace s)) page in (Ok u, emit_to (EvPageUrl page u) s).

(** [if on_update: on_update(u)] *)
Definition notify (on_update : option callback) (u : Update) : M unit :=
  match on_update with
  | Some cb => call_do (OnUpdate cb u)
  | None => mret tt
  end.

(** *** cleanup (lines 317-349) *)

Definition resource_name (r : Resource) : string :=
  match r with
  | RPage => "Page"
  | RContext => "Context"
  | RBrowser => "Browser"
  | REngine => "Playwright"
  end.

(** One of the four blocks of [cleanup]:
    [if self._x: try: await self._x.close() except Exception as error:
    print(...) finally: self._x = None]. *)
Definition release (r : Resource) : M unit :=
  h ← get_self (get_handle r);
  match h with
  | Some h =>
      finally
        (try_except (call_do (Close r h))
           (λ error, print ("[WARN] " +:+ resource_name r +:+ " cleanup error: "
                            +:+ str_exn error)))
        (modify_self (set_handle r None))
  | None => mret tt
  end.

Definition cleanup : M unit :=
  release RPage;; release RContext;; release RBrowser;; release REngine.

(** *** initialize (lines 68-107) *)

Definition initialize : M bool :=
  try_except
    (cleanup;;
     pw ← call_acquire PlaywrightStart;
     modify_self (set_handle REngine pw);;
     engine ← match pw with
              | Some h => mret h
              | None => raise (AttributeError "'NoneType' object has no attribute 'chromium'")
              end;
     cfg ← get_self config;
     b ← call_acquire (ChromiumLaunch engine (headless (browser cfg))
                         (browser_timeout (browser cfg)) (args (browser cfg)));
     modify_self (set_handle RBrowser b);;
     b ← match b with
         | Some h => mret h
         | None => raise (RuntimeError "Browser initialization failed")
         end;
     c ← call_acquire (NewContext b (user_agent (context cfg))
                         (width (viewport (context cfg)))
                         (height (viewport (context cfg))));
     modify_self (set_handle RContext c);;
     c ← match c with
         | Some h => mret h
         | None => raise (RuntimeError "Context creation failed")
         end;
     p ← call_acquire (NewPage c);
     modify_self (set_handle RPage p);;
     p ← match p with
         | Some h => mret h
         | None => raise (RuntimeError "Page creation failed")
         end;
     call_do (SetDefaultTimeout p (default_timeout (page cfg)));;
     mret true)
    (λ error,
       print ("[ERROR] Browser initialization failed: " +:+ str_exn error);;
       cleanup;;
       mret false).

(** *** analyze_page (lines 201-244) *)

Definition ANALYSIS_SCRIPT : string := "
            () => {
                return {
                    title: document.title,
                    url: window.location.href,
                    linkCount: document.querySelectorAll('a').length,
                    formCount: document.querySelectorAll('form').length,
                    buttonCount: document.querySelectorAll('button').length,
                    inputCount: document.querySelectorAll('input').length,
                    imageCount: document.querySelectorAll('img').length,
                    hasServiceWorker: 'serviceWorker' in navigator,
                    viewport: {
                        width: window.innerWidth,
                        height: window.innerHeight
                    },
                    scrollHeight: document.body.scrollHeight,
                    links: Array.from(document.querySelectorAll('a'))
                        .map(a => ({
                            text: a.textContent.trim(),
                            href: a.href,
                            target: a.target
                        }))
                        .filter(link => link.href && link.text),
                    forms: Array.from(document.querySelectorAll('form'))
                        .map(form => ({
                            action: form.action,
                            method: form.method,
                            inputs: Array.from(form.querySelectorAll('input'))
                                .map(input => ({
                                    type: input.type,
                                    name: input.name,
                                    required: input.required
                                }))
                        }))
                };
            }
        ".

Definition PageAnalysis_fields : gset string :=
  list_to_set ["title"; "url"; "link_count"; "form_count"; "button_count";
               "input_count"; "image_count"; "has_service_worker"; "viewport";
               "scroll_height"; "links"; "forms"]%string.

(** [PageAnalysis] built from the keywords of [data]: a keyword that is not
    a field, or a field without its keyword, is a [TypeError].  Python names
    the class and the offending keyword in the message; the message is kept
    short here. *)
Definition PageAnalysis_new (data : JsValue) : Result PageAnalysis :=
  match data with
  | JsOther _ => Raise (TypeError "argument after ** must be a mapping")
  | JsObject d =>
      if bool_decide (dom d ⊆ PageAnalysis_fields) then
        match
          (a1 ← d !! "title"; a2 ← d !! "url"; a3 ← d !! "link_count";
           a4 ← d !! "form_count"; a5 ← d !! "button_count";
           a6 ← d !! "input_count"; a7 ← d !! "image_count";
           a8 ← d !! "has_service_worker"; a9 ← d !! "viewport";
           a10 ← d !! "scroll_height"; a11 ← d !! "links"; a12 ← d !! "forms";
           Some {| title := a1; url := a2; link_count := a3; form_count := a4;
                   button_count := a5; input_count := a6; image_count := a7;
                   has_service_worker := a8; pa_viewport := a9;
                   scroll_height := a10; links := a11; forms := a12 |})
        with
        | Some pa => Ok pa
        | None => Raise (TypeError "__init__() missing required positional arguments")
        end
      else Raise (TypeError "__init__() got an unexpected keyword argument")
  end.

Definition analyze_page : M PageAnalysis :=
  pg ← get_self _page;
  match pg with
  | None => raise (RuntimeError "Page not initialized")
  | Some page =>
      data ← call_evaluate page ANALYSIS_SCRIPT;
      match PageAnalysis_new data with
      | Ok pa => mret pa
      | Raise e => raise e
      end
  end.

(** *** perform_automated_actions (lines 246-273) *)

Definition SCROLL_SCRIPT : string := "window.scrollTo(0, document.body.scrollHeight / 2)".

Definition automation_error (error : exn) (ts : Z) : ErrorEntry :=
  {| err_type := "AUTOMATION_ERROR"; err_action := None;
     err_message := str_exn error; err_timestamp := ts |}.

Definition perform_automated_actions (on_update : option callback) : M unit :=
  pg ← get_self _page;
  match pg with
  | None => mret tt
  | Some page =>
      try_except
        (call_evaluate page SCROLL_SCRIPT;;
         call_do (WaitForTimeout page (VInt 1000));;
         ts ← now;
         modify_report (add_action
           {| action_type := "SCROLL"; status := "SUCCESS";
              message := "Scrolled to page middle"; timestamp := ts;
              details := None |});;
         notify on_update
           {| upd_type := "action"; upd_message := "Page scroll test successful";
              upd_url := None; upd_analysis := None |})
        (λ error, ts ← now; modify_report (add_error (automation_error error ts)))
  end.

(** *** perform_action (lines 275-315) *)

(** [action[key]] *)
Definition getitem (action : Action) (key : string) : M PyVal :=
  match action !! key with
  | Some v => mret v
  | None => raise (KeyError key)
  end.

(** [action.get(key, dflt)] *)
Definition get_or (action : Action) (key : string) (dflt : PyVal) : PyVal :=
  default dflt (action !! key).

#[export] Instance PyVal_eq_dec : EqDecision PyVal.
Proof. solve_decision. Defined.

Definition perform_action (action : Action) (on_update : option callback) : M unit :=
  pg ← get_self _page;
  match pg with
  | None => mret tt
  | Some page =>
      let action_type := get_or action "type" VNone in
      (if decide (action_type = VStr "click") then
         sel ← getitem action "selector";
         call_do (Click page sel);;
         sel' ← getitem action "selector";
         ts ← now;
         modify_report (add_action
           {| action_type := "CUSTOM_CLICK"; status := "SUCCESS";
              message := "Clicked " +:+ py_str sel'; timestamp := ts;
              details := None |})
       else if decide (action_type = VStr "type") then
         sel ← getitem action "selector";
         txt ← getitem action "text";
         call_do (Fill page sel txt);;
         sel' ← getitem action "selector";
         ts ← now;
         modify_report (add_action
           {| action_type := "CUSTOM_TYPE"; status := "SUCCESS";
              message := "Typed into " +:+ py_str sel'; timestamp := ts;
              details := None |})
       else if decide (action_type = VStr "wait") then
         call_do (WaitForTimeout page (get_or action "duration" (VInt 1000)));;
         ts ← now;
         modify_report (add_action
           {| action_type := "WAIT"; status := "SUCCESS";
              message := "Waited " +:+ py_str (get_or action "duration" VNone) +:+ "ms";
              timestamp := ts; details := None |})
       else mret tt);;
      notify on_update
        {| upd_type := "action";
           upd_message := "Custom action executed: " +:+ py_str action_type;
           upd_url := None; upd_analysis := None |}
  end.

(** *** run_test (lines 109-199) *)

(** The ['.0f'] rendering of a duration, on its exact value. *)
Definition round_half_even (q : Q) : Z :=
  let n := Qfloor q in
  match Qcompare (q - inject_Z n) (1 # 2) with
  | Lt => n
  | Gt => (n + 1)%Z
  | Eq => if Z.even n then n else (n + 1)%Z
  end.
Definition format_0f (q : Q) : string := pretty (round_half_even q).

Definition action_error (action : Action) (error : exn) (ts : Z) : ErrorEntry :=
  {| err_type := "ACTION_ERROR"; err_action := Some (get_or action "type" VNone);
     err_message := str_exn error; err_timestamp := ts |}.

Definition critical_error (error : exn) (ts : Z) : ErrorEntry :=
  {| err_type := "CRITICAL_ERROR"; err_action := None;
     err_message := str_exn error; err_timestamp := ts |}.

(** Lines 138-149: navigation and the two performance metrics. *)
Definition navigate (page : handle) (url : string) : M Q :=
  cfg ← get_self config;
  start_time ← now;
  response ← call_goto page url (wait_until (Config.page cfg))
               (navigation_timeout (Config.page cfg));
  end_time ← now;
  let load_time := Qmake (end_time - start_time) 1000 in
  modify_report (set_performance "load_time" load_time);;
  match response with
  | Some r =>
      modify_report (set_performance "response_time"
                       (default (0 : Q) (timing r !! "responseEnd")))
  | None => mret tt
  end;;
  mret load_time.

(** Lines 170-179: the loop over the custom actions. *)
Definition run_custom_action (on_update : option callback) (action : Action) : M unit :=
  try_except (perform_action action on_update)
    (λ error, ts ← now; modify_report (add_error (action_error action error ts))).

(** Lines 130-181: the body of the [try]. *)
Definition run_test_body (url : string) (actions : list Action)
    (on_update : option callback) : M unit :=
  init_success ← initialize;
  pg ← get_self _page;
  page ← match init_success, pg with
         | true, Some page => mret page
         | _, _ => raise (RuntimeError "Browser initialization failed")
         end;
  notify on_update
    {| upd_type := "status"; upd_message := "Bot started, navigating...";
       upd_url := None; upd_analysis := None |};;
  load_time ← navigate page url;
  match on_update with
  | Some _ =>
      u ← read_url page;
      notify on_update
        {| upd_type := "navigation";
           upd_message := "Page loaded (" +:+ format_0f load_time +:+ "ms)";
           upd_url := Some u; upd_analysis := None |}
  | None => mret tt
  end;;
  analysis ← analyze_page;
  modify_report (set_analysis analysis);;
  notify on_update
    {| upd_type := "analysis";
       upd_message := "Page analyzed: " +:+ py_str (link_count analysis) +:+ " links, "
                      +:+ py_str (form_count analysis) +:+ " forms";
       upd_url := None; upd_analysis := Some analysis |};;
  perform_automated_actions on_update;;
  for_each actions (run_custom_action on_update);;
  modify_report (λ r, set_success (bool_decide (length (errors r) = 0)) r).

Definition run_test (url : string) (actions : option (list Action))
    (on_update : option callback) : M BotReport :=
  modify_report (λ _, BotReport_new false);;
  let actions := default [] actions in
  finally
    (try_except (run_test_body url actions on_update)
       (λ error,
          ts ← now;
          modify_report (add_error (critical_error error ts));;
          notify on_update
            {| upd_type := "error";
               upd_message := "Critical error: " +:+ str_exn error;
               upd_url := None; upd_analysis := None |}))
    cleanup;;
  get_report.

End Run.

(** *** What a trace shows *)

Definition warning (r : Resource) (error : exn) : string :=
  "[WARN] " +:+ resource_name r +:+ " cleanup error: " +:+ str_exn error.

(** The events of one block of [cleanup] that holds [h] and whose close
    call is answered [res]. *)
Definition closing (r : Resource) (h : option handle) (res : Result unit) : list Event :=
  match h with
  | None => []
  | Some h =>
      EvDo (Close r h) res ::
      match res with
      | Ok _ => []
      | Raise error => [EvPrint (warning r error)]
      end
  end.

(** The events of [cleanup] from bot [b], its four close calls being
    answered [r1] to [r4]. *)
Definition cleanup_events (b : WebBot) (r1 r2 r3 r4 : Result unit) : list Event :=
  closing RPage (_page b) r1 ++ closing RContext (_context b) r2
  ++ closing RBrowser (_browser b) r3 ++ closing REngine (_playwright b) r4.

Definition acquired_kind (c : AcquireCall) : Resource :=
  match c with
  | PlaywrightStart => REngine
  | ChromiumLaunch _ _ _ _ => RBrowser
  | NewContext _ _ _ _ => RContext
  | NewPage _ => RPage
  end.

Definition acquisition_of (ev : Event) : option (Resource * handle) :=
  match ev with
  | EvAcquire c (Ok (Some h)) => Some (acquired_kind c, h)
  | _ => None
  end.

Definition release_of (ev : Event) : option (Resource * handle) :=
  match ev with
  | EvDo (Close r h) _ => Some (r, h)
  | _ => None
  end.

(** The resources obtained, and the close calls made, in order. *)
Definition acquisitions (evs : list Event) : list (Resource * handle) :=
  omap acquisition_of evs.
Definition releases (evs : list Event) : list (Resource * handle) :=
  omap release_of evs.

(** The resources a bot holds, in the order [cleanup] visits them. *)
Definition held (b : WebBot) : list (Resource * handle) :=
  omap (λ r, (r,.) <$> get_handle r b) [RPage; RContext; RBrowser; REngine].

(** The events a computation adds to the trace. *)
Definition events_of {A} (m : M A) (s : State) : list Event :=
  drop (length (trace s)) (trace (m s).2).

(** The page call a custom action asks for on page [p]: none for a kind
    that is not supported and none when a key it needs is missing. *)
Definition planned (p : handle) (action : Action) : option UnitCall :=
  let action_type := get_or action "type" VNone in
  if decide (action_type = VStr "click") then
    sel ← action !! "selector"; Some (Click p sel)
  else if decide (action_type = VStr "type") then
    sel ← action !! "selector"; txt ← action !! "text"; Some (Fill p sel txt)
  else if decide (action_type = VStr "wait") then
    Some (WaitForTimeout p (get_or action "duration" (VInt 1000)))
  else None.

Definition supported (action : Action) : bool :=
  let action_type := get_or action "type" VNone in
  bool_decide (action_type = VStr "click") || bool_decide (action_type = VStr "type")
  || bool_decide (action_type = VStr "wait").

(** A supported action that lacks a key it reads. *)
Definition malformed (action : Action) : bool :=
  let action_type := get_or action "type" VNone in
  bool_decide (action_type = VStr "click") && bool_decide (action !! "selector" = None)
  || bool_decide (action_type = VStr "type")
     && (bool_decide (action !! "selector" = None) || bool_decide (action !! "text" = None)).

Definition page_call_of (ev : Event) : option UnitCall :=
  match ev with
  | EvDo (Click p sel) _ => Some (Click p sel)
  | EvDo (Fill p sel txt) _ => Some (Fill p sel txt)
  | EvDo (WaitForTimeout p ms) _ => Some (WaitForTimeout p ms)
  | _ => None
  end.
Definition page_calls (evs : list Event) : list UnitCall := omap page_call_of evs.

(** The page calls that returned normally. *)
Definition done_of (ev : Event) : option UnitCall :=
  match ev with
  | EvDo c (Ok _) => page_call_of ev
  | _ => None
  end.
Definition page_calls_done (evs : list Event) : list UnitCall := omap done_of evs.

Definition failure_of (ev : Event) : option exn :=
  match ev with
  | EvAcquire _ (Raise e) | EvGoto _ _ _ _ (Raise e)
  | EvEvaluate _ _ (Raise e) | EvDo _ (Raise e) => Some e
  | _ => None
  end.
Definition failures (evs : list Event) : list exn := omap failure_of evs.

(** The events of the custom-action loop: page calls, observer calls and
    clock readings. *)
Definition custom_event (ev : Event) : bool :=
  match ev with
  | EvDo (Click _ _) _ | EvDo (Fill _ _ _) _ | EvDo (WaitForTimeout _ _) _
  | EvDo (OnUpdate _ _) _ | EvNow _ => true
  | _ => false
  end.

Definition is_scroll (ev : Event) : bool :=
  match ev with
  | EvEvaluate _ script _ => bool_decide (script = SCROLL_SCRIPT)
  | _ => false
  end.

Definition is_analysis (ev : Event) : bool :=
  match ev with
  | EvEvaluate _ script _ => bool_decide (script = ANALYSIS_SCRIPT)
  | _ => false
  end.

(** The events of steps 4 and 5 of the pipeline: the scroll and the page
    calls of the custom actions. *)
Definition is_action_event (ev : Event) : bool :=
  is_scroll ev || bool_decide (is_Some (page_call_of ev)).

(** A failure of session acquisition, navigation or page analysis. *)
Definition critical_failure (ev : Event) : bool :=
  match ev with
  | EvAcquire _ (Raise _) | EvGoto _ _ _ _ (Raise _)
  | EvDo (SetDefaultTimeout _ _) (Raise _) => true
  | EvEvaluate _ _ (Raise _) => is_analysis ev
  | _ => false
  end.

(** The result recorded by a scroll that went well. *)
Definition scroll_result (ts : Z) : ActionResult :=
  {| action_type := "SCROLL"; status := "SUCCESS";
     message := "Scrolled to page middle"; timestamp := ts; details := None |}.

(** The events of [initialize]: acquisitions, close calls, the page
    timeout and printed lines. *)
Definition init_event (ev : Event) : bool :=
  match ev with
  | EvAcquire _ _ | EvDo (Close _ _) _ | EvDo (SetDefaultTimeout _ _) _
  | EvPrint _ => true
  | _ => false
  end.

(** The bot with its four handles reset. *)
Definition cleared (b : WebBot) : WebBot :=
  {| config := config b; _browser := None; _context := None;
     _page := None; _playwright := None |}.

(** The bot that holds a whole session. *)
Definition holding (cfg : BotConfig) (p c br w : handle) : WebBot :=
  {| config := cfg; _browser := Some br; _context := Some c;
     _page := Some p; _playwright := Some w |}.

(** The page-introspection calls, with the page and the answer. *)
Definition analysis_of (ev : Event) : option (handle * Result JsValue) :=
  match ev with
  | EvEvaluate p script r => if is_analysis ev then Some (p, r) else None
  | _ => None
  end.
Definition analysis_evals (evs : list Event) : list (handle * Result JsValue) :=
  omap analysis_of evs.

(** The navigations that returned, with the response or its absence. *)
Definition navigation_of (ev : Event) : option (option Response) :=
  match ev with
  | EvGoto _ _ _ _ (Ok resp) => Some resp
  | _ => None
  end.
Definition navigated (evs : list Event) : list (option Response) :=
  omap navigation_of evs.

(** The events of steps 4 and 5. *)
Definition stage_event (ev : Event) : bool := custom_event ev || is_scroll ev.

(** [response.request.timing.get('responseEnd', 0)] *)
Definition response_end (r : Response) : Q := default (0 : Q) (timing r !! "responseEnd").

(** The report with [rs] appended to its actions and [es] to its errors. *)
Definition extended (r : BotReport) (rs : list ActionResult) (es : list ErrorEntry)
  : BotReport :=
  {| success := success r; actions := actions r ++ rs; errors := errors r ++ es;
     analysis := analysis r; performance := performance r |}.

(** *** What each step guarantees *)

Definition action_level (e : ErrorEntry) : Prop :=
  err_type e = "AUTOMATION_ERROR"%string ∨ err_type e = "ACTION_ERROR"%string.

Definition metrics_recorded (before after : gmap string Q) (resp : option Response) : Prop :=
  is_Some (after !! "load_time")
  ∧ after !! "response_time" =
      match resp with
      | Some r => Some (response_end r)
      | None => before !! "response_time"
      end.

(** What one call of [perform_action] does on page [p]. *)
Record performed (p : handle) (a : Action) (res : Result unit)
    (evs : list Event) (rs : list ActionResult) : Prop :=
  { performed_calls : page_calls evs = option_list (planned p a);
    performed_events : forallb custom_event evs = true;
    performed_results : length rs = length (page_calls_done evs);
    performed_unsupported : supported a = false → rs = [];
    performed_outcome :
      match res with
      | Ok _ => failures evs = [] ∧ malformed a = false
      | Raise e => length (failures evs) + (if malformed a then 1 else 0) = 1
      end%nat }.

(** What one round of the loop over the custom actions does. *)
Record round (p : handle) (a : Action) (evs : list Event)
    (rs : list ActionResult) (es : list ErrorEntry) : Prop :=
  { round_calls : page_calls evs = option_list (planned p a);
    round_events : forallb custom_event evs = true;
    round_results : length rs = length (page_calls_done evs);
    round_unsupported : supported a = false → rs = [];
    round_errors :
      length es = (length (failures evs) + if malformed a then 1 else 0)%nat;
    round_entries : Forall (λ e, ∃ error ts, e = action_error a error ts) es;
    round_quiet : failures evs = [] → malformed a = false → es = [] }.

(** What the built-in scroll does on page [p]: it never raises, and a
    failure of any of its calls leaves exactly one entry. *)
Record scrolled (p : handle) (evs : list Event)
    (rs : list ActionResult) (es : list ErrorEntry) : Prop :=
  { scrolled_first : ∃ r rest, evs = EvEvaluate p SCROLL_SCRIPT r :: rest
                               ∧ forallb custom_event rest = true;
    scrolled_outcome :
      (failures evs = [] ∧ es = [] ∧ ∃ ts, rs = [scroll_result ts])
      ∨ (∃ error ts, failures evs = [error] ∧ es = [automation_error error ts]
                     ∧ (length rs ≤ 1)%nat) }.

(** What [initialize] does from bot [b]: it never raises; what it closed
    and what it still holds is what [b] held and what it acquired. *)
Record initialized (b : WebBot) (ok : bool) (b' : WebBot) (evs : list Event) : Prop :=
  { initialized_config : config b' = config b;
    initialized_events : forallb init_event evs = true;
    initialized_balance : releases evs ++ held b' = held b ++ reverse (acquisitions evs);
    initialized_order :
      (acquisitions evs).*1 `prefix_of` [REngine; RBrowser; RContext; RPage];
    initialized_ok :
      if ok then (∃ p c br w, b' = holding (config b) p c br w)
                 ∧ existsb critical_failure evs = false
      else b' = cleared b }.

(** What the body of the [try] in [run_test] does. *)
Record body_ran (b : WebBot) (r : BotReport) (res : Result unit)
    (b' : WebBot) (r' : BotReport) (evs : list Event) : Prop :=
  { body_balance : releases evs ++ held b' = held b ++ reverse (acquisitions evs);
    body_order : (acquisitions evs).*1 `prefix_of` [REngine; RBrowser; RContext; RPage];
    body_self : b' = cleared b ∨ ∃ p c br w, b' = holding (config b) p c br w;
    body_once : (length (analysis_evals evs) ≤ 1)%nat;
    body_metrics :
      Forall (metrics_recorded (performance r) (performance r')) (navigated evs);
    body_outcome :
      match res with
      | Ok _ =>
          existsb critical_failure evs = false
          ∧ is_Some (analysis r')
          ∧ success r' = bool_decide (length (errors r') = 0%nat)
          ∧ ∃ es, errors r' = errors r ++ es ∧ Forall action_level es
      | Raise e =>
          errors r' = errors r ∧ actions r' = actions r ∧ success r' = success r
          ∧ existsb is_action_event evs = false
          ∧ Forall (λ x, match x.2 with
                         | Raise e0 => e0 = e ∧ _page b' = Some x.1
                         | Ok _ => True
                         end) (analysis_evals evs)
      end }.

(** What a whole call of [run_test] does. *)
Record ran (O : Oracle) (s : State) (cb : option callback) (res : Result BotReport)
    (s' : State) (evs : list Event) : Prop :=
  { ran_self : self s' = cleared (self s);
    ran_balance : releases evs = held (self s) ++ reverse (acquisitions evs);
    ran_order : (acquisitions evs).*1 `prefix_of` [REngine; RBrowser; RContext; RPage];
    ran_once : (length (analysis_evals evs) ≤ 1)%nat;
    ran_metrics :
      Forall (metrics_recorded ∅ (performance (report s'))) (navigated evs);
    ran_result :
      match res with
      | Ok r => r = report s'
      | Raise e => ∃ n cb' u, cb = Some cb' ∧ perform O n (OnUpdate cb' u) = Raise e
      end;
    ran_outcome :
      (res = Ok (report s')
       ∧ existsb critical_failure evs = false
       ∧ is_Some (analysis (report s'))
       ∧ success (report s') = bool_decide (length (errors (report s')) = 0%nat)
       ∧ Forall action_level (errors (report s')))
      ∨ (∃ error ts,
           errors (report s') = [critical_error error ts]
           ∧ success (report s') = false
           ∧ actions (report s') = []
           ∧ existsb is_action_event evs = false
           ∧ Forall (λ x, match x.2 with
                          | Raise e0 =>
                              e0 = error
                              ∧ ∃ pre post c br w,
                                  evs = pre ++ post ∧ analysis_evals post = []
                                  ∧ releases post = [(RPage, x.1); (RContext, c);
                                                     (RBrowser, br); (REngine, w)]
                          | Ok _ => True
                          end) (analysis_evals evs)) }.

(** An observer that is absent or never raises. *)
Definition quiet (O : Oracle) (cb : option callback) : Prop :=
  cb = None ∨ ∀ n c u, perform O n (OnUpdate c u) = Ok tt.

(** *** Concrete worlds, for running the model *)
Module Worlds.

(** A browser in which everything works; [evaluate] answers [data]. *)
Definition healthy (data : JsValue) : Oracle :=
  {| acquire := λ n c, Ok (Some (S n));
     goto := λ _ _ _ _ _, Ok (Some {| timing := {[ "responseEnd" := (42 # 1)%Q ]} |});
     evaluate := λ _ _ _, Ok data;
     perform := λ _ _, Ok tt;
     clock := λ n, (1000 * Z.of_nat n)%Z;
     page_url := λ _ _, "https://example.org/"%string |}.

Definition good_data : JsValue :=
  JsObject (list_to_map
    [("title", VStr "Example"); ("url", VStr "https://example.org/");
     ("link_count", VInt 3); ("form_count", VInt 1); ("button_count", VInt 2);
     ("input_count", VInt 4); ("image_count", VInt 0);
     ("has_service_worker", VBool true); ("viewport", VOther "{'width': 1366, 'height': 768}");
     ("scroll_height", VInt 900); ("links", VOther "[...]"); ("forms", VOther "[...]")]%string).

Definition fresh : State :=
  {| self := WebBot_new None; report := BotReport_new false; trace := [] |}.

Definition failing_click : Oracle :=
  {| acquire := acquire (healthy good_data);
     goto := goto (healthy good_data);
     evaluate := evaluate (healthy good_data);
     perform := λ _ c, match c with
                       | Click _ _ => Raise (EngineError "click: no element matches the selector")
                       | _ => Ok tt
                       end;
     clock := clock (healthy good_data);
     page_url := page_url (healthy good_data) |}.


Definition no_engine : Oracle :=
  {| acquire := λ _ _, Raise (EngineError "Executable doesn't exist");
     goto := goto (healthy good_data);
     evaluate := evaluate (healthy good_data);
     perform := perform (healthy good_data);
     clock := clock (healthy good_data);
     page_url := page_url (healthy good_data) |}.

Definition closed_page : Oracle :=
  {| acquire := acquire (healthy good_data);
     goto := λ _ _ _ _ _, Ok None;
     evaluate := λ _ _ script,
       if bool_decide (script = ANALYSIS_SCRIPT)
       then Raise (EngineError "Target page, context or browser has been closed")
       else Ok good_data;
     perform := perform (healthy good_data);
     clock := clock (healthy good_data);
     page_url := page_url (healthy good_data) |}.

Definition click_action (sel : string) : Action :=
  {[ "type" := VStr "click"; "selector" := VStr sel ]}.

(** The object that the introspection script itself builds: its keys
    are the script's, not the field names of [PageAnalysis]. *)
Definition script_data : JsValue :=
  JsObject (list_to_map
    [("title", VStr "Example"); ("url", VStr "https://example.org/");
     ("linkCount", VInt 3); ("formCount", VInt 1); ("buttonCount", VInt 2);
     ("inputCount", VInt 4); ("imageCount", VInt 0);
     ("hasServiceWorker", VBool true); ("viewport", VOther "{'width': 1366, 'height': 768}");
     ("scrollHeight", VInt 900); ("links", VOther "[...]"); ("forms", VOther "[...]")]%string).

End Worlds.
End Bot.

(** * Proofs *)

(** ** The configuration bounds *)
Module ConfigProofs.
Import Config.
Local Open Scope Z_scope.

Lemma accepted_bounds f v lo hi :
  ge f = Some lo → le f = Some hi → accepted f (Some v) ↔ lo ≤ v ≤ hi.
Proof. unfold accepted, satisfies. intros -> ->. rewrite andb_true_iff. lia. Qed.

Lemma accepted_lower f v lo :
  ge f = Some lo → le f = None → accepted f (Some v) ↔ lo ≤ v.
Proof. unfold accepted, satisfies. intros -> ->. rewrite andb_true_iff. lia. Qed.

(** Case analysis on every supplied argument and on its check. *)
Ltac checks :=
  repeat match goal with
  | |- context [validate _ _ ?arg] => is_var arg; destruct arg as [?v|]
  end;
  unfold validate, accepted, satisfies; cbn;
  repeat match goal with
  | |- context [(?lo <=? ?v) && (?v <=? ?hi)] =>
      let H := fresh in
      destruct ((lo <=? v) && (v <=? hi)) eqn:H;
      [apply andb_true_iff in H as [?%Z.leb_le ?%Z.leb_le]
      |apply andb_false_iff in H as [?%Z.leb_gt|?%Z.leb_gt]]
  | |- context [(?lo <=? ?v) && true] =>
      let H := fresh in
      destruct ((lo <=? v) && true) eqn:H;
      [apply andb_true_iff in H as [?%Z.leb_le _]
      |apply andb_false_iff in H as [?%Z.leb_gt|?]; [|done]]
  end;
  cbn; repeat split; eauto; try lia; try (left; congruence); try (right; congruence).

(** C9, as amended.  Every constructor either builds the object from the
    supplied values (an argument that is not supplied takes its default),
    and then every numeric field meets the bounds declared for it, or it
    raises a validation error because a supplied value breaks a bound:
    nothing is clamped.  Ten fields are bounded on both sides; [min_bots]
    and [default_bots] are bounded only from below. *)
Theorem config_numeric_bounds :
  (∀ w h,
     match ViewportConfig_new w h with
     | Ok c =>
         accepted width_field w ∧ accepted height_field h
         ∧ c = {| width := default 1366 w; height := default 768 h |}
         ∧ 800 ≤ width c ≤ 3840 ∧ 600 ≤ height c ≤ 2160
     | Raise e =>
         (¬ accepted width_field w ∨ ¬ accepted height_field h)
         ∧ ∃ locs, e = ValidationError locs
     end)
  ∧ (∀ hl t a,
       match BrowserConfig_new hl t a with
       | Ok c =>
           accepted browser_timeout_field t
           ∧ browser_timeout c = default 60000 t
           ∧ 5000 ≤ browser_timeout c ≤ 120000
       | Raise e =>
           ¬ accepted browser_timeout_field t ∧ ∃ locs, e = ValidationError locs
       end)
  ∧ (∀ ua vp t,
       match ContextConfig_new ua vp t with
       | Ok c =>
           accepted context_timeout_field t
           ∧ context_timeout c = default 30000 t
           ∧ 5000 ≤ context_timeout c ≤ 60000
       | Raise e =>
           ¬ accepted context_timeout_field t ∧ ∃ locs, e = ValidationError locs
       end)
  ∧ (∀ dt nt wu,
       match PageConfig_new dt nt wu with
       | Ok c =>
           accepted default_timeout_field dt ∧ accepted navigation_timeout_field nt
           ∧ default_timeout c = default 30000 dt
           ∧ navigation_timeout c = default 30000 nt
           ∧ 5000 ≤ default_timeout c ≤ 60000 ∧ 5000 ≤ navigation_timeout c ≤ 60000
       | Raise e =>
           (¬ accepted default_timeout_field dt ∨ ¬ accepted navigation_timeout_field nt)
           ∧ ∃ locs, e = ValidationError locs
       end)
  ∧ (∀ mx mn df,
       match ConcurrencyConfig_new mx mn df with
       | Ok c =>
           accepted max_bots_field mx ∧ accepted min_bots_field mn
           ∧ accepted default_bots_field df
           ∧ c = {| max_bots := default 10 mx; min_bots := default 1 mn;
                    default_bots := default 1 df |}
           ∧ 1 ≤ max_bots c ≤ 100 ∧ 1 ≤ min_bots c ∧ 1 ≤ default_bots c
       | Raise e =>
           (¬ accepted max_bots_field mx ∨ ¬ accepted min_bots_field mn
            ∨ ¬ accepted default_bots_field df)
           ∧ ∃ locs, e = ValidationError locs
       end)
  ∧ (∀ en wt,
       match ActionConfig_new en wt with
       | Ok c =>
           accepted wait_time_field wt
           ∧ wait_time c = default 1000 wt
           ∧ 0 ≤ wait_time c ≤ 10000
       | Raise e =>
           ¬ accepted wait_time_field wt ∧ ∃ locs, e = ValidationError locs
       end)
  ∧ (∀ url ra rd sc lc fi,
       match TestingConfig_new url ra rd sc lc fi with
       | Ok c =>
           accepted retry_attempts_field ra ∧ accepted retry_delay_field rd
           ∧ retry_attempts c = default 3 ra ∧ retry_delay c = default 1000 rd
           ∧ 0 ≤ retry_attempts c ≤ 10 ∧ 100 ≤ retry_delay c ≤ 10000
       | Raise e =>
           (¬ accepted retry_attempts_field ra ∨ ¬ accepted retry_delay_field rd)
           ∧ ∃ locs, e = ValidationError locs
       end)
  ∧ (∀ v, (accepted width_field (Some v) ↔ 800 ≤ v ≤ 3840)
          ∧ (accepted height_field (Some v) ↔ 600 ≤ v ≤ 2160)
          ∧ (accepted browser_timeout_field (Some v) ↔ 5000 ≤ v ≤ 120000)
          ∧ (accepted context_timeout_field (Some v) ↔ 5000 ≤ v ≤ 60000)
          ∧ (accepted default_timeout_field (Some v) ↔ 5000 ≤ v ≤ 60000)
          ∧ (accepted navigation_timeout_field (Some v) ↔ 5000 ≤ v ≤ 60000)
          ∧ (accepted max_bots_field (Some v) ↔ 1 ≤ v ≤ 100)
          ∧ (accepted min_bots_field (Some v) ↔ 1 ≤ v)
          ∧ (accepted default_bots_field (Some v) ↔ 1 ≤ v)
          ∧ (accepted wait_time_field (Some v) ↔ 0 ≤ v ≤ 10000)
          ∧ (accepted retry_attempts_field (Some v) ↔ 0 ≤ v ≤ 10)
          ∧ (accepted retry_delay_field (Some v) ↔ 100 ≤ v ≤ 10000)).
Proof.
  split_and!; intros.
  - unfold ViewportConfig_new. checks.
  - unfold BrowserConfig_new. checks.
  - unfold ContextConfig_new. checks.
  - unfold PageConfig_new. checks.
  - unfold ConcurrencyConfig_new. checks.
  - unfold ActionConfig_new. checks.
  - unfold TestingConfig_new. checks.
  - split_and!; (by apply accepted_bounds) || (by apply accepted_lower).
Qed.

(** C9, as stated, fails for [default_bots]: no maximum bounds it. *)
Lemma config_bounds_counterexample :
  ¬ ∃ hi, ∀ mx mn df c,
      ConcurrencyConfig_new mx mn df = Ok c → default_bots c ≤ hi.
Proof.
  intros [hi H].
  specialize (H None None (Some (Z.max hi 0 + 1))
                {| max_bots := 10; min_bots := 1; default_bots := Z.max hi 0 + 1 |}).
  cbn in H. unfold ConcurrencyConfig_new, validate, satisfies in H. cbn in H.
  destruct (1 <=? Z.max hi 0 + 1) eqn:Hle; [|apply Z.leb_gt in Hle; lia].
  cbn in H. specialize (H eq_refl). lia.
Qed.

Example default_bots_unbounded :
  ConcurrencyConfig_new None None (Some 1000000)
  = Ok {| max_bots := 10; min_bots := 1; default_bots := 1000000 |}
  ∧ ∃ locs, ConcurrencyConfig_new (Some 101) None None = Raise (ValidationError locs).
Proof. split; [reflexivity|]. eexists. reflexivity. Qed.

End ConfigProofs.

(** ** The bot *)
Module BotProofs.
Import Config Bot.

Lemma state_eta s : {| self := self s; report := report s; trace := trace s |} = s.
Proof. by destruct s. Qed.

Lemma set_handle_None_id r b : get_handle r b = None → set_handle r None b = b.
Proof. destruct b, r; cbn; intros ->; done. Qed.

Lemma events_of_app {A} (m : M A) s evs :
  trace (m s).2 = trace s ++ evs → events_of m s = evs.
Proof. unfold events_of. intros ->. by rewrite drop_app_length. Qed.

Section Cleanup.
Variable O : Oracle.

(** One block of [cleanup] returns normally, clears its handle and adds
    the events of [closing]. *)
Lemma release_run r s :
  ∃ res, release O r s =
    (Ok tt, {| self := set_handle r None (self s); report := report s;
               trace := trace s ++ closing r (get_handle r (self s)) res |}).
Proof.
  unfold release, mbind, M_bind, get_self.
  destruct (get_handle r (self s)) as [h|] eqn:Hh.
  - exists (perform O (length (trace s)) (Close r h)).
    unfold finally, try_except, call_do, print, modify_self, emit_to. cbn.
    destruct (perform O _ _) as [[]|e]; cbn; by rewrite <- ?app_assoc.
  - exists (Ok tt). cbn. rewrite app_nil_r, set_handle_None_id by done.
    by rewrite state_eta.
Qed.

Lemma cleanup_run s :
  ∃ r1 r2 r3 r4, cleanup O s =
    (Ok tt, {| self := cleared (self s); report := report s;
               trace := trace s ++ cleanup_events (self s) r1 r2 r3 r4 |}).
Proof.
  unfold cleanup, mbind, M_bind.
  destruct (release_run RPage s) as [r1 ->].
  edestruct (release_run RContext) as [r2 ->].
  edestruct (release_run RBrowser) as [r3 ->].
  edestruct (release_run REngine) as [r4 ->].
  exists r1, r2, r3, r4. unfold cleanup_events. cbn. by rewrite <- !app_assoc.
Qed.

Lemma releases_closing r h res :
  releases (closing r h res) = from_option (λ h, [(r, h)]) [] h.
Proof. destruct h as [h|]; [|done]. by destruct res. Qed.

Lemma acquisitions_closing r h res : acquisitions (closing r h res) = [].
Proof. destruct h as [h|]; [|done]. by destruct res as [[]|]. Qed.

Lemma releases_cleanup_events b r1 r2 r3 r4 :
  releases (cleanup_events b r1 r2 r3 r4) = held b.
Proof.
  unfold cleanup_events, releases. rewrite !omap_app.
  fold releases. rewrite !releases_closing. unfold held. cbn.
  by destruct (_page b), (_context b), (_browser b), (_playwright b).
Qed.

Lemma acquisitions_cleanup_events b r1 r2 r3 r4 :
  acquisitions (cleanup_events b r1 r2 r3 r4) = [].
Proof.
  unfold cleanup_events, acquisitions. rewrite !omap_app.
  fold acquisitions. by rewrite !acquisitions_closing.
Qed.

Lemma releases_app evs evs' : releases (evs ++ evs') = releases evs ++ releases evs'.
Proof. apply omap_app. Qed.

Lemma acquisitions_app evs evs' :
  acquisitions (evs ++ evs') = acquisitions evs ++ acquisitions evs'.
Proof. apply omap_app. Qed.

Lemma releases_cons ev evs :
  releases (ev :: evs) = option_list (release_of ev) ++ releases evs.
Proof. unfold releases. cbn. by destruct (release_of ev). Qed.

Lemma acquisitions_cons ev evs :
  acquisitions (ev :: evs) = option_list (acquisition_of ev) ++ acquisitions evs.
Proof. unfold acquisitions. cbn. by destruct (acquisition_of ev). Qed.

Lemma held_cleared b : held (cleared b) = [].
Proof. done. Qed.

Lemma existsb_cleanup_events (f : Event → bool) b r1 r2 r3 r4 :
  (∀ c x res, f (EvDo (Close c x) res) = false) → (∀ l, f (EvPrint l) = false) →
  existsb f (cleanup_events b r1 r2 r3 r4) = false.
Proof.
  intros H1 H2. unfold cleanup_events, closing. rewrite !existsb_app.
  destruct (_page b), (_context b), (_browser b), (_playwright b),
    r1, r2, r3, r4; cbn; by rewrite ?H1, ?H2.
Qed.

Lemma forallb_closing (f : Event → bool) r h res :
  (∀ c x, f (EvDo (Close c x) res) = true) → (∀ l, f (EvPrint l) = true) →
  forallb f (closing r h res) = true.
Proof.
  intros H1 H2. destruct h as [h|]; [|done]. cbn. rewrite H1.
  destruct res; cbn; by rewrite ?H2.
Qed.

Lemma forallb_cleanup_events (f : Event → bool) b r1 r2 r3 r4 :
  (∀ c x res, f (EvDo (Close c x) res) = true) → (∀ l, f (EvPrint l) = true) →
  forallb f (cleanup_events b r1 r2 r3 r4) = true.
Proof.
  intros H1 H2. unfold cleanup_events.
  rewrite !forallb_app, !forallb_closing; auto.
Qed.

End Cleanup.

Section Actions.
Variable O : Oracle.

Lemma extended_nil r : extended r [] [] = r.
Proof. destruct r. unfold extended. cbn. by rewrite !app_nil_r. Qed.

Lemma extended_extended r rs es rs' es' :
  extended (extended r rs es) rs' es' = extended r (rs ++ rs') (es ++ es').
Proof. unfold extended. cbn. by rewrite !app_assoc. Qed.

Lemma add_action_extended x r : add_action x r = extended r [x] [].
Proof. unfold add_action, extended. by rewrite app_nil_r. Qed.

Lemma add_error_extended e r : add_error e r = extended r [] [e].
Proof. unfold add_error, extended. by rewrite app_nil_r. Qed.

Lemma run_eq {A} (res : Result A) b (R R' : BotReport) (T T' : list Event) :
  R = R' → T = T' →
  (res, {| self := b; report := R; trace := T |})
  = (res, {| self := b; report := R'; trace := T' |}).
Proof. by intros -> ->. Qed.

Ltac close_run :=
  apply run_eq;
  [ rewrite ?add_action_extended, ?add_error_extended, ?extended_extended; reflexivity
  | rewrite <- ?app_assoc; first [reflexivity | exact (eq_sym (app_nil_r _))] ].

Ltac kind_clash :=
  match goal with
  | H : ?x = _, H' : ?x ≠ _ |- _ => exact (H' H)
  | H : ?x = _, H' : ?x = _ |- _ => rewrite H in H'; discriminate H'
  | H : ?x ≠ ?x |- _ => exact (H eq_refl)
  end.

Ltac oracle_step :=
  match goal with
  | |- context [decide ?P] => destruct (decide P)
  | |- context [match perform O ?n ?c with _ => _ end] =>
      destruct (perform O n c) as [[]|?] eqn:?
  | |- context [match ?a !! ?k with _ => _ end] => destruct (a !! k) eqn:?
  | |- context [match ?cb with Some _ => _ | None => _ end] => is_var cb; destruct cb
  end.

Lemma perform_action_run cb a s p :
  _page (self s) = Some p →
  ∃ res evs rs,
    perform_action O a cb s =
      (res, {| self := self s; report := extended (report s) rs [];
               trace := trace s ++ evs |})
    ∧ performed p a res evs rs.
Proof.
  intros Hp. destruct s as [b r t]. cbn in Hp.
  rewrite <- (extended_nil r).
  unfold perform_action, mbind, M_bind, get_self. cbn [self]. rewrite Hp.
  unfold getitem, notify, call_do, now, modify_report, mret, M_ret, raise, emit_to.
  repeat (cbn -[get_or extended]; oracle_step).
  all: cbn -[get_or extended].
  all: eexists _, _, _.
  all: rewrite <- ?app_assoc; cbn [app].
  all: (split; [close_run|]).
  all: try match goal with
         | |- performed _ _ (perform O ?n ?c) _ _ =>
             destruct (perform O n c) as [[]|?]
         end.
  all: constructor; unfold planned, supported, malformed; cbn -[get_or].
  all: repeat (case_decide || case_bool_decide); try (exfalso; kind_clash).
  all: cbn; try done.
  all: repeat match goal with H : _ !! _ = _ |- _ => rewrite H end; try done.
Qed.

Lemma run_custom_action_run cb a s p :
  _page (self s) = Some p →
  ∃ evs rs es,
    run_custom_action O cb a s =
      (Ok tt, {| self := self s; report := extended (report s) rs es;
                 trace := trace s ++ evs |})
    ∧ round p a evs rs es.
Proof.
  intros Hp. unfold run_custom_action, try_except.
  destruct (perform_action_run cb a s p Hp) as (res & evs & rs & -> & [H1 H2 H3 H4 H5]).
  destruct res as [[]|error].
  - exists evs, rs, []. destruct H5 as [H5 H6]. split; [done|].
    constructor; try done. by rewrite H5, H6.
  - unfold mbind, M_bind, now, modify_report, emit_to. cbn.
    eexists (evs ++ [EvNow _]), rs, [_]. split.
    + apply run_eq; [by rewrite add_error_extended, extended_extended, app_nil_r
                    | by rewrite app_assoc].
    + constructor.
      * unfold page_calls in *. by rewrite omap_app, H1, app_nil_r.
      * by rewrite forallb_app, H2.
      * unfold page_calls_done in *. by rewrite omap_app, app_nil_r.
      * done.
      * unfold failures in *. rewrite omap_app, app_nil_r. cbn. lia.
      * repeat constructor. eauto.
      * unfold failures. rewrite omap_app, app_nil_r. intros Hf Hm.
        unfold failures in H5. rewrite Hf, Hm in H5. done.
Qed.

(** The whole loop: it returns normally whatever the actions do. *)
Lemma custom_actions_run cb acts s p :
  _page (self s) = Some p →
  ∃ evs rs es,
    for_each acts (run_custom_action O cb) s =
      (Ok tt, {| self := self s; report := extended (report s) rs es;
                 trace := trace s ++ evs |})
    ∧ page_calls evs = omap (planned p) acts
    ∧ forallb custom_event evs = true
    ∧ length rs = length (page_calls_done evs)
    ∧ length es = (length (failures evs) + length (filter (λ a, malformed a = true) acts))%nat
    ∧ Forall (λ e, ∃ a error ts, a ∈ acts ∧ e = action_error a error ts) es.
Proof.
  revert s. induction acts as [|a acts IH]; intros s Hp.
  - exists [], [], []. cbn. rewrite extended_nil, app_nil_r, state_eta. done.
  - cbn [for_each]. unfold mbind, M_bind.
    destruct (run_custom_action_run cb a s p Hp) as (evs1 & rs1 & es1 & -> & R).
    destruct (IH {| self := self s; report := extended (report s) rs1 es1;
                    trace := trace s ++ evs1 |} Hp)
      as (evs2 & rs2 & es2 & -> & C2 & E2 & L2 & N2 & F2).
    cbn [self report trace].
    exists (evs1 ++ evs2), (rs1 ++ rs2), (es1 ++ es2).
    destruct R as [R1 R2 R3 R4 R5 R6 R7]. split_and!.
    + apply run_eq; [by rewrite extended_extended | by rewrite app_assoc].
    + unfold page_calls in *. rewrite omap_app, R1, C2. cbn.
      by destruct (planned p a).
    + by rewrite forallb_app, R2, E2.
    + unfold page_calls_done in *. rewrite omap_app, !length_app. lia.
    + unfold failures in *. rewrite omap_app, !length_app, R5, N2.
      rewrite filter_cons. destruct (malformed a); cbn.
      * rewrite decide_True by done. cbn. lia.
      * rewrite decide_False by done. lia.
    + apply Forall_app. split.
      * eapply Forall_impl; [exact R6|]. intros e (error & ts & ->).
        exists a, error, ts. split; [left|done].
      * eapply Forall_impl; [exact F2|]. intros e (a' & error & ts & Ha & ->).
        exists a', error, ts. split; [by right|done].
Qed.

Lemma perform_automated_actions_run cb s p :
  _page (self s) = Some p →
  ∃ evs rs es,
    perform_automated_actions O cb s =
      (Ok tt, {| self := self s; report := extended (report s) rs es;
                 trace := trace s ++ evs |})
    ∧ scrolled p evs rs es.
Proof.
  intros Hp. destruct s as [b r t]. cbn in Hp.
  rewrite <- (extended_nil r).
  unfold perform_automated_actions, mbind, M_bind, get_self. cbn [self]. rewrite Hp.
  unfold try_except, notify, call_evaluate, call_do, now, modify_report, mret, M_ret,
    mbind, M_bind, emit_to.
  cbn -[extended SCROLL_SCRIPT].
  destruct (evaluate O _ _ _) as [v|error]; cbn -[extended SCROLL_SCRIPT];
    [destruct (perform O _ _) as [[]|error]; cbn -[extended SCROLL_SCRIPT];
     [destruct cb as [cb|]; cbn -[extended SCROLL_SCRIPT];
      [destruct (perform O _ _) as [[]|error] eqn:Hcb;
         cbn -[extended SCROLL_SCRIPT]|]|]|].
  all: eexists _, _, _.
  all: rewrite <- ?app_assoc; cbn [app].
  all: (split; [close_run|]).
  all: constructor; [eexists _, _; split; [reflexivity|]|]; cbn -[SCROLL_SCRIPT].
  all: rewrite <- ?app_assoc in *; cbn [app] in *; rewrite ?Hcb; try done.
  all: first [ left; split_and!; [done..|]; eexists; reflexivity
             | right; eexists _, _; split_and!; [reflexivity..|cbn; lia] ].
Qed.

End Actions.

Section Initialize.
Variable O : Oracle.

Ltac run_cleanup :=
  match goal with
  | |- context [cleanup O ?st] =>
      let H := fresh in
      destruct (cleanup_run O st) as (?r & ?r & ?r & ?r & H); rewrite H; clear H
  end.

Ltac trace_norm :=
  rewrite ?releases_app, ?acquisitions_app, ?releases_cons, ?acquisitions_cons,
    ?forallb_app, ?existsb_app,
    ?releases_cleanup_events, ?acquisitions_cleanup_events,
    ?forallb_cleanup_events, ?existsb_cleanup_events by done;
  cbn -[cleanup_events held releases acquisitions].

Ltac acquire_case :=
  match goal with
  | |- context [acquire O ?n ?c] => destruct (acquire O n c) as [[?h|]|?e]
  | |- context [perform O ?n ?c] => destruct (perform O n c) as [[]|?e]
  end;
  cbn -[cleanup_events].

Lemma initialize_run s :
  ∃ ok b' evs,
    initialize O s =
      (Ok ok, {| self := b'; report := report s; trace := trace s ++ evs |})
    ∧ initialized (self s) ok b' evs.
Proof.
  unfold initialize, try_except, mbind, M_bind.
  run_cleanup.
  unfold call_acquire, call_do, modify_self, get_self, print, raise, mret, M_ret, emit_to.
  cbn -[cleanup_events].
  repeat acquire_case.
  all: try run_cleanup.
  all: eexists _, _, _.
  all: cbn -[cleanup_events]; rewrite <- ?app_assoc; cbn -[cleanup_events].
  all: (split; [reflexivity|]).
  all: constructor; try done.
  all: repeat (progress trace_norm).
  all: rewrite ?held_cleared, ?app_nil_r.
  all: try done.
  all: try (eexists; reflexivity).
  split; [by eexists _, _, _, _|done].
Qed.

End Initialize.

Lemma scripts_differ : SCROLL_SCRIPT ≠ ANALYSIS_SCRIPT.
Proof. unfold SCROLL_SCRIPT, ANALYSIS_SCRIPT. discriminate. Qed.

Lemma analysis_evals_app evs evs' :
  analysis_evals (evs ++ evs') = analysis_evals evs ++ analysis_evals evs'.
Proof. apply omap_app. Qed.
Lemma analysis_evals_cons ev evs :
  analysis_evals (ev :: evs) = option_list (analysis_of ev) ++ analysis_evals evs.
Proof. unfold analysis_evals. cbn [omap list_omap]. by destruct (analysis_of ev). Qed.
Lemma navigated_app evs evs' : navigated (evs ++ evs') = navigated evs ++ navigated evs'.
Proof. apply omap_app. Qed.
Lemma navigated_cons ev evs :
  navigated (ev :: evs) = option_list (navigation_of ev) ++ navigated evs.
Proof. unfold navigated. cbn [omap list_omap]. by destruct (navigation_of ev). Qed.

Lemma is_analysis_analysis p r : is_analysis (EvEvaluate p ANALYSIS_SCRIPT r) = true.
Proof. unfold is_analysis. by rewrite bool_decide_eq_true_2. Qed.
Lemma is_analysis_scroll p r : is_analysis (EvEvaluate p SCROLL_SCRIPT r) = false.
Proof. unfold is_analysis. rewrite bool_decide_eq_false_2; [done|apply scripts_differ]. Qed.
Lemma is_scroll_analysis p r : is_scroll (EvEvaluate p ANALYSIS_SCRIPT r) = false.
Proof.
  unfold is_scroll. rewrite bool_decide_eq_false_2; [done|].
  intros H. by apply scripts_differ.
Qed.
Lemma is_scroll_scroll p r : is_scroll (EvEvaluate p SCROLL_SCRIPT r) = true.
Proof. unfold is_scroll. by rewrite bool_decide_eq_true_2. Qed.

Lemma analysis_of_analysis p r : analysis_of (EvEvaluate p ANALYSIS_SCRIPT r) = Some (p, r).
Proof. unfold analysis_of. by rewrite is_analysis_analysis. Qed.
Lemma critical_failure_analysis p r :
  critical_failure (EvEvaluate p ANALYSIS_SCRIPT r) = negb (is_ok r).
Proof. unfold critical_failure. rewrite is_analysis_analysis. by destruct r. Qed.
Lemma is_action_event_analysis p r : is_action_event (EvEvaluate p ANALYSIS_SCRIPT r) = false.
Proof. unfold is_action_event. by rewrite is_scroll_analysis. Qed.

(** Steps 4 and 5 touch neither the session nor the critical calls. *)
Lemma stage_quiet evs :
  forallb stage_event evs = true →
  releases evs = [] ∧ acquisitions evs = [] ∧ existsb critical_failure evs = false
  ∧ analysis_evals evs = [] ∧ navigated evs = [].
Proof.
  induction evs as [|ev evs IH]; [done|].
  cbn [forallb]. intros [Hev Hevs]%andb_prop.
  destruct (IH Hevs) as (H1 & H2 & H3 & H4 & H5).
  rewrite releases_cons, acquisitions_cons, analysis_evals_cons, navigated_cons.
  cbn [existsb]. rewrite H1, H2, H3, H4, H5.
  destruct ev as [| | p script r | c r | | |]; try done.
  - unfold stage_event in Hev. cbn [custom_event orb] in Hev.
    unfold is_scroll in Hev. apply bool_decide_eq_true_1 in Hev as ->.
    unfold analysis_of, critical_failure. rewrite is_analysis_scroll.
    by destruct r.
  - destruct c; try done; by destruct r.
Qed.

Lemma custom_stage evs : forallb custom_event evs = true → forallb stage_event evs = true.
Proof.
  intros H. apply forallb_forall. intros ev Hev.
  unfold stage_event. by rewrite (proj1 (forallb_forall _ _) H ev Hev).
Qed.

Lemma init_quiet evs :
  forallb init_event evs = true →
  existsb is_action_event evs = false ∧ analysis_evals evs = [] ∧ navigated evs = [].
Proof.
  induction evs as [|ev evs IH]; [done|].
  cbn [forallb]. intros [Hev Hevs]%andb_prop.
  destruct (IH Hevs) as (H1 & H2 & H3).
  rewrite analysis_evals_cons, navigated_cons.
  cbn [existsb]. rewrite H1, H2, H3.
  destruct ev as [| | p script r | c r | | |]; try done.
  destruct c; done.
Qed.

Ltac run_norm :=
  rewrite ?releases_app, ?acquisitions_app, ?analysis_evals_app, ?navigated_app,
    ?releases_cons, ?acquisitions_cons, ?analysis_evals_cons, ?navigated_cons,
    ?forallb_app, ?existsb_app,
    ?analysis_of_analysis, ?critical_failure_analysis, ?is_action_event_analysis,
    ?releases_cleanup_events, ?acquisitions_cleanup_events,
    ?forallb_cleanup_events, ?existsb_cleanup_events by done;
  cbn -[cleanup_events held releases acquisitions analysis_evals navigated
        ANALYSIS_SCRIPT SCROLL_SCRIPT critical_failure is_action_event analysis_of].

Lemma scrolled_stage p evs rs es : scrolled p evs rs es → forallb stage_event evs = true.
Proof.
  intros [(r & rest & -> & Hrest) _]. cbn [forallb]. unfold stage_event at 1.
  rewrite is_scroll_scroll, orb_true_r. by apply custom_stage.
Qed.

Lemma scrolled_level p evs rs es : scrolled p evs rs es → Forall action_level es.
Proof.
  intros [_ [(_ & -> & _)|(error & ts & _ & -> & _)]]; [done|].
  repeat constructor.
Qed.

Lemma custom_level (acts : list Action) es :
  Forall (λ e, ∃ a error ts, a ∈ acts ∧ e = action_error a error ts) es →
  Forall action_level es.
Proof.
  intros H. eapply Forall_impl; [exact H|].
  intros e (a & error & ts & _ & ->). by right.
Qed.

Ltac use_quiet :=
  repeat match goal with
  | H : ?lhs = _ |- context [?lhs] =>
      lazymatch lhs with
      | releases ?l => is_var l
      | acquisitions ?l => is_var l
      | analysis_evals ?l => is_var l
      | navigated ?l => is_var l
      | existsb _ ?l => is_var l
      end;
      rewrite H
  end.

Section Body.
Variable O : Oracle.

Ltac body_step :=
  match goal with
  | |- context [clock O ?n] => generalize (clock O n); intros ?t
  | |- context [page_url O ?n ?p] => generalize (page_url O n p); intros ?u
  | |- context [match perform O ?n ?c with _ => _ end] =>
      destruct (perform O n c) as [[]|?e]
  | |- context [match goto O ?n ?p ?u ?w ?t with _ => _ end] =>
      destruct (goto O n p u w t) as [[?resp|]|?e]
  | |- context [match evaluate O ?n ?p ?sc with _ => _ end] =>
      destruct (evaluate O n p sc) as [?v|?e]
  | |- context [match PageAnalysis_new ?v with _ => _ end] =>
      destruct (PageAnalysis_new v) as [?pa|?e]
  | |- context [match ?cb with Some _ => _ | None => _ end] => is_var cb; destruct cb
  | |- context [perform_automated_actions O ?cb ?st] =>
      let H := fresh in
      destruct (perform_automated_actions_run O cb st _ eq_refl)
        as (?evs & ?rs & ?es & H & ?Hscroll);
      rewrite H; clear H;
      pose proof (scrolled_level _ _ _ _ Hscroll);
      apply scrolled_stage, stage_quiet in Hscroll as (? & ? & ? & ? & ?)
  | |- context [for_each ?acts (run_custom_action O ?cb) ?st] =>
      let H := fresh in
      destruct (custom_actions_run O cb acts st _ eq_refl)
        as (?evs & ?rs & ?es & H & _ & ?Hcustom & _ & _ & ?Hentries);
      rewrite H; clear H;
      apply custom_level in Hentries;
      apply custom_stage, stage_quiet in Hcustom as (? & ? & ? & ? & ?)
  end.

Lemma run_test_body_run url acts cb s :
  ∃ res b' r' evs,
    run_test_body O url acts cb s =
      (res, {| self := b'; report := r'; trace := trace s ++ evs |})
    ∧ body_ran (self s) (report s) res b' r' evs.
Proof.
  unfold run_test_body, navigate, analyze_page, mbind, M_bind.
  destruct (initialize_run O s) as (ok & b' & evs0 & -> & [Icfg Iev Ibal Iord Iok]).
  destruct (init_quiet _ Iev) as (Ia & Ian & Inav).
  unfold notify, read_url, call_goto, call_evaluate, call_do, now, get_self,
    modify_report, mret, M_ret, raise, emit_to.
  destruct ok.
  - destruct Iok as [(p & c & br & w & ->) Icrit].
    repeat (cbn -[ANALYSIS_SCRIPT SCROLL_SCRIPT PageAnalysis_new format_0f py_str
                  perform_automated_actions for_each run_custom_action];
            body_step).
    all: cbn -[ANALYSIS_SCRIPT SCROLL_SCRIPT PageAnalysis_new format_0f py_str
                  perform_automated_actions for_each run_custom_action].
    all: eexists _, _, _, _.
    all: (split; [rewrite <- ?app_assoc; reflexivity|]).
    all: constructor.
    all: repeat (progress (run_norm; use_quiet)).
    all: cbn -[ANALYSIS_SCRIPT SCROLL_SCRIPT cleanup_events held].
    all: rewrite ?app_nil_r.
    all: try done.
    all: try (right; by eexists _, _, _, _).
    all: try lia.
    all: try (repeat constructor; unfold metrics_recorded, response_end;
              by simplify_map_eq).
    all: try (split_and!; try done; repeat constructor; done).
    all: split_and!; [done|done|by rewrite app_assoc|].
    all: eexists (_ ++ _); split; [by rewrite app_assoc|by apply Forall_app].
  - subst b'. cbn.
    eexists _, _, _, _. split; [reflexivity|].
    constructor; rewrite ?held_cleared, ?Ian, ?Inav in *; try done.
    + by left.
    + cbn; lia.
Qed.
End Body.

Section Whole.
Variable O : Oracle.

Lemma cleanup_events_quiet b r1 r2 r3 r4 :
  existsb critical_failure (cleanup_events b r1 r2 r3 r4) = false
  ∧ existsb is_action_event (cleanup_events b r1 r2 r3 r4) = false
  ∧ analysis_evals (cleanup_events b r1 r2 r3 r4) = []
  ∧ navigated (cleanup_events b r1 r2 r3 r4) = [].
Proof.
  assert (forallb init_event (cleanup_events b r1 r2 r3 r4) = true) as H
    by by apply forallb_cleanup_events.
  destruct (init_quiet _ H) as (? & ? & ?).
  split_and!; try done. by apply existsb_cleanup_events.
Qed.

Lemma notify_run cb u s :
  ∃ res evs,
    notify O cb u s =
      (res, {| self := self s; report := report s; trace := trace s ++ evs |})
    ∧ forallb custom_event evs = true
    ∧ existsb is_action_event evs = false
    ∧ match res with
      | Ok _ => True
      | Raise e => ∃ n cb' u', cb = Some cb' ∧ perform O n (OnUpdate cb' u') = Raise e
      end.
Proof.
  destruct cb as [cb'|]; cbn.
  - unfold call_do, emit_to. eexists _, [_]. split; [reflexivity|].
    split; [done|]. split; [done|].
    destruct (perform O _ _) as [[]|e] eqn:Hcb; [done|]. eauto.
  - exists (Ok tt), []. by rewrite app_nil_r, state_eta.
Qed.

Lemma run_test_run url acts cb s :
  ∃ res s' evs,
    run_test O url acts cb s = (res, s') ∧ trace s' = trace s ++ evs
    ∧ ran O s cb res s' evs.
Proof.
  unfold run_test, finally, try_except, mbind, M_bind, modify_report.
  destruct (run_test_body_run O url (default [] acts) cb
              {| self := self s; report := BotReport_new false; trace := trace s |})
    as (res & b' & r' & evs & -> & [Bbal Bord Bself Bonce Bmet Bout]).
  cbn [self report trace] in *.
  destruct res as [[]|e].
  - destruct (cleanup_run O {| self := b'; report := r'; trace := trace s ++ evs |})
      as (r1 & r2 & r3 & r4 & ->).
    destruct (cleanup_events_quiet b' r1 r2 r3 r4) as (Q1 & Q2 & Q3 & Q4).
    cbn [fst snd]. eexists _, _, _. split; [reflexivity|]. cbn [self report trace].
    split; [by rewrite <- app_assoc|].
    destruct Bout as (B1 & B2 & B3 & es & B4 & B5).
    constructor; cbn [self report trace].
    all: rewrite ?releases_app, ?acquisitions_app, ?analysis_evals_app, ?navigated_app,
           ?existsb_app, ?releases_cleanup_events, ?acquisitions_cleanup_events,
           ?Q1, ?Q2, ?Q3, ?Q4, ?app_nil_r; try done.
    + destruct Bself as [->|(p & c & br & w & ->)]; done.
    + left. rewrite B1. split_and!; try done. by rewrite B4.
  - unfold now, emit_to. cbn [self report trace fst snd].
    generalize (clock O (length (trace s ++ evs))). intros ts.
    destruct Bout as (B1 & B2 & B3 & B4 & B5).
    match goal with
    | |- context [notify O cb ?u ?st] =>
        destruct (notify_run cb u st) as (res' & evs' & -> & Hevs' & S0 & Hres')
    end.
    apply custom_stage, stage_quiet in Hevs' as (S1 & S2 & S3 & S4 & S5).
    cbn [self report trace].
    match goal with
    | |- context [cleanup O ?st] =>
        destruct (cleanup_run O st) as (r1 & r2 & r3 & r4 & Hc)
    end.
    destruct (cleanup_events_quiet b' r1 r2 r3 r4) as (Q1 & Q2 & Q3 & Q4).
    rewrite Hc. clear Hc. cbn [self report trace].
    exists (match res' with Ok _ => Ok (add_error (critical_error e ts) r')
                       | Raise e' => Raise e' end).
    eexists _, (evs ++ EvNow ts :: evs' ++ cleanup_events b' r1 r2 r3 r4).
    split; [by destruct res' as [[]|]|].
    cbn [self report trace]. split; [by rewrite <- !app_assoc|].
    constructor; cbn [self report trace].
    all: rewrite ?releases_app, ?acquisitions_app, ?analysis_evals_app, ?navigated_app,
           ?releases_cons, ?acquisitions_cons, ?analysis_evals_cons, ?navigated_cons,
           ?existsb_app, ?releases_app, ?acquisitions_app, ?analysis_evals_app,
           ?navigated_app, ?releases_cleanup_events, ?acquisitions_cleanup_events;
        cbn [existsb]; rewrite ?existsb_app;
        rewrite ?S0, ?S1, ?S2, ?S3, ?S4, ?S5, ?Q1, ?Q2, ?Q3, ?Q4; cbn -[held];
        rewrite ?app_nil_r; try done.
    + destruct Bself as [->|(p & c & br & w & ->)]; done.
    + by destruct res' as [[]|].
    + right. exists e, ts. rewrite B1, B2, B3, B4. split_and!; try done.
      eapply Forall_impl; [exact B5|]. intros [p [v|e0]]; [done|].
      cbn [fst snd]. intros [-> Hp]. split; [done|].
      destruct Bself as [->|(p' & c & br & w & ->)]; [done|].
      cbn in Hp. injection Hp as ->.
      exists (evs ++ EvNow ts :: evs'), (cleanup_events (holding (config (self s)) p c br w)
                                           r1 r2 r3 r4), c, br, w.
      split_and!; [by rewrite <- app_assoc|done|].
      by rewrite releases_cleanup_events.
Qed.
End Whole.

Import Worlds.

(** ** The claims about the run *)

Section Claims.
Variable O : Oracle.

Lemma run_test_events url acts cb s :
  ∃ evs, trace (run_test O url acts cb s).2 = trace s ++ evs
         ∧ events_of (run_test O url acts cb) s = evs
         ∧ ran O s cb (run_test O url acts cb s).1 (run_test O url acts cb s).2 evs.
Proof.
  destruct (run_test_run O url acts cb s) as (res & s' & evs & Heq & Ht & R).
  exists evs. split_and!.
  - by rewrite Heq.
  - apply events_of_app. by rewrite Heq.
  - by rewrite Heq.
Qed.

(** C1.  Whenever [run_test] returns a report, for any oracle, URL, action
    list and observer, the success flag of the report is true exactly when
    its error list is empty. *)
Theorem run_test_success_iff_no_errors url acts cb s r s' :
  run_test O url acts cb s = (Ok r, s') →
  success r = bool_decide (length (errors r) = 0%nat).
Proof.
  intros Hrun. destruct (run_test_events url acts cb s) as (evs & _ & _ & R).
  rewrite Hrun in R. cbn [fst snd] in R.
  destruct R as [_ _ _ _ _ Hr [(_ & _ & _ & H & _)|(error & ts & He & Hs & _)]];
    cbn in Hr; subst r; [done|].
  by rewrite Hs, He.
Qed.

End Claims.

Section Boundary.
Variable O : Oracle.

Lemma quiet_returns url acts cb s evs :
  ran O s cb (run_test O url acts cb s).1 (run_test O url acts cb s).2 evs →
  quiet O cb →
  (run_test O url acts cb s).1 = Ok (report (run_test O url acts cb s).2).
Proof.
  intros [_ _ _ _ _ Hr _] Hq. destruct (run_test O url acts cb s).1 as [r|e].
  - by rewrite Hr.
  - destruct Hr as (n & cb' & u & -> & Hcb). destruct Hq as [|Hq]; [done|].
    by rewrite Hq in Hcb.
Qed.


Lemma analysis_evals_elem p r evs :
  EvEvaluate p ANALYSIS_SCRIPT r ∈ evs ↔ (p, r) ∈ analysis_evals evs.
Proof.
  unfold analysis_evals. rewrite list_elem_of_omap. split.
  - intros H. eexists. split; [exact H|]. apply analysis_of_analysis.
  - intros (ev & Hev & Hx).
    destruct ev as [| |p' script r'| | | |]; try done.
    unfold analysis_of in Hx. unfold is_analysis in Hx.
    case_bool_decide; [|done]. by simplify_eq.
Qed.

(** C4.  When the page-introspection call raises [e]: the report holds
    exactly one entry, the CRITICAL_ERROR of [e]; it is marked unsuccessful
    and has no action result; neither the scroll nor any custom action is
    tried; the introspection call is made once; the four close calls, page
    first, come after the failure; the handles are reset; and the report is
    returned unless the observer itself raises. *)
Theorem analysis_failure_is_critical url acts cb s p e :
  EvEvaluate p ANALYSIS_SCRIPT (Raise e) ∈ events_of (run_test O url acts cb) s →
  let s' := (run_test O url acts cb s).2 in
  let evs := events_of (run_test O url acts cb) s in
  (∃ ts, errors (report s') = [critical_error e ts])
  ∧ success (report s') = false
  ∧ actions (report s') = []
  ∧ existsb is_action_event evs = false
  ∧ analysis_evals evs = [(p, Raise e)]
  ∧ (∃ pre post c br w,
       evs = pre ++ post
       ∧ EvEvaluate p ANALYSIS_SCRIPT (Raise e) ∈ pre
       ∧ releases post = [(RPage, p); (RContext, c); (RBrowser, br); (REngine, w)])
  ∧ self s' = cleared (self s)
  ∧ (quiet O cb → (run_test O url acts cb s).1 = Ok (report s')).
Proof.
  cbn zeta. destruct (run_test_events O url acts cb s) as (evs & _ & -> & R).
  intros Hin. pose proof (quiet_returns _ _ _ _ _ R) as Hq.
  destruct R as [Hself _ _ Honce _ _ Hout].
  apply analysis_evals_elem in Hin as Hin'.
  destruct Hout as [(_ & Hn & _)|(error & ts & He & Hs & Ha & Hact & Hall)].
  { exfalso. apply not_true_iff_false in Hn. apply Hn.
    apply existsb_exists. eexists. split; [apply list_elem_of_In, Hin|].
    by rewrite critical_failure_analysis. }
  rewrite Forall_forall in Hall. specialize (Hall _ Hin'). cbn in Hall.
  destruct Hall as (-> & pre & post & c & br & w & Hevs & Hpost & Hrel).
  split_and!; try done.
  - by exists ts.
  - destruct (analysis_evals evs) as [|x [|y l]]; cbn in Honce; [|by apply list_elem_of_singleton in Hin' as ->|lia].
    by apply elem_of_nil in Hin'.
  - exists pre, post, c, br, w. split_and!; try done.
    rewrite Hevs in Hin. apply elem_of_app in Hin as [|Hin]; [done|].
    apply analysis_evals_elem in Hin. rewrite Hpost in Hin. by apply elem_of_nil in Hin.
Qed.

(** C5, as amended.  In every run the close calls are those of the
    resources the bot held at the start, followed by those of the resources
    the run acquired, each once, in the reverse of the order of acquisition
    (engine, browser, context, page); a resource that was never acquired is
    not closed; at the end no handle is held; and [cleanup] never raises. *)
Theorem cleanup_releases_acquired url acts cb s :
  let s' := (run_test O url acts cb s).2 in
  let evs := events_of (run_test O url acts cb) s in
  releases evs = held (self s) ++ reverse (acquisitions evs)
  ∧ (acquisitions evs).*1 `prefix_of` [REngine; RBrowser; RContext; RPage]
  ∧ held (self s') = []
  ∧ ∀ s0, (cleanup O s0).1 = Ok tt.
Proof.
  cbn zeta. destruct (run_test_events O url acts cb s) as (evs & _ & -> & R).
  destruct R as [Hself Hbal Hord _ _ _ _]. split_and!; try done.
  - by rewrite Hself.
  - intros s0. by destruct (cleanup_run O s0) as (r1 & r2 & r3 & r4 & ->).
Qed.

(** C6.  [cleanup] visits page, context, browser and engine in this order.
    For each handle that is held it makes the close call; if that call
    raises, the warning is printed and the next resource is visited all the
    same.  [r1] to [r4] are the answers to the four close calls: whatever
    they are, the close calls made are those of all the resources held. *)
Theorem cleanup_order_and_fault_tolerance s :
  ∃ r1 r2 r3 r4,
    cleanup O s =
      (Ok tt,
       {| self := cleared (self s); report := report s;
          trace := trace s ++ closing RPage (_page (self s)) r1
                           ++ closing RContext (_context (self s)) r2
                           ++ closing RBrowser (_browser (self s)) r3
                           ++ closing REngine (_playwright (self s)) r4 |})
    ∧ releases (events_of (cleanup O) s) = held (self s).
Proof.
  destruct (cleanup_run O s) as (r1 & r2 & r3 & r4 & Hc).
  exists r1, r2, r3, r4. split; [exact Hc|].
  rewrite (events_of_app _ _ (cleanup_events (self s) r1 r2 r3 r4)) by by rewrite Hc.
  apply releases_cleanup_events.
Qed.

(** C10.  [cleanup] always returns normally and leaves the four handles at
    [None], whatever the close calls answered; the configuration is kept. *)
Theorem cleanup_resets_handles s :
  (cleanup O s).1 = Ok tt
  ∧ _page (self (cleanup O s).2) = None
  ∧ _context (self (cleanup O s).2) = None
  ∧ _browser (self (cleanup O s).2) = None
  ∧ _playwright (self (cleanup O s).2) = None
  ∧ config (self (cleanup O s).2) = config (self s).
Proof. by destruct (cleanup_run O s) as (r1 & r2 & r3 & r4 & ->). Qed.

End Boundary.

Section Isolation.
Variable O : Oracle.


(** C7.  Performing an action whose kind is not click, type or wait
    changes neither list of the report and makes no page call.  Unless the
    observer raises when told of it, the call returns normally and the loop
    records nothing either. *)
Theorem unsupported_action_ignored a cb s :
  supported a = false →
  report (perform_action O a cb s).2 = report s
  ∧ page_calls (events_of (perform_action O a cb) s) = []
  ∧ (quiet O cb → (perform_action O a cb s).1 = Ok tt
                  ∧ report (run_custom_action O cb a s).2 = report s).
Proof.
  intros Hs. unfold supported in Hs.
  apply orb_false_elim in Hs as [[H1 H2]%orb_false_elim H3].
  apply bool_decide_eq_false_1 in H1, H2, H3.
  assert (∃ res evs,
    perform_action O a cb s =
      (res, {| self := self s; report := report s; trace := trace s ++ evs |})
    ∧ page_calls evs = [] ∧ (quiet O cb → res = Ok tt)) as (res & evs & Hpa & Hc & Hq).
  { unfold perform_action, mbind, M_bind, get_self.
    destruct (_page (self s)) as [p|].
    - rewrite !decide_False by done. cbn [mret M_ret].
      destruct cb as [cb'|]; cbn [notify mret M_ret].
      + unfold call_do, emit_to. eexists _, [_]. split; [reflexivity|].
        split; [done|]. intros [|Hq]; [done|]. apply Hq.
      + exists (Ok tt), []. by rewrite app_nil_r, state_eta.
    - exists (Ok tt), []. by rewrite app_nil_r, state_eta. }
  rewrite (events_of_app _ _ evs) by by rewrite Hpa.
  unfold run_custom_action, try_except. rewrite Hpa. cbn [fst snd report].
  split_and!; [done..|]. intros Hquiet. by rewrite (Hq Hquiet).
Qed.

(** C8.  After a navigation that returned, the report of the run has the
    load-time metric; it has the response-time metric exactly when there was
    a response.  The navigation step adds no error entry, and it raises only
    when the navigation call itself raised: an absent response is no
    failure. *)
Theorem navigation_metrics url acts cb s p u wu t resp :
  EvGoto p u wu t (Ok resp) ∈ events_of (run_test O url acts cb) s →
  let perf := performance (report (run_test O url acts cb s).2) in
  is_Some (perf !! "load_time")
  ∧ perf !! "response_time" = response_end <$> resp
  ∧ ∀ s0 p0,
      errors (report (navigate O p0 url s0).2) = errors (report s0)
      ∧ ∀ e, (navigate O p0 url s0).1 = Raise e →
             ∃ n, goto O n p0 url (wait_until (page (config (self s0))))
                    (navigation_timeout (page (config (self s0)))) = Raise e.
Proof.
  cbn zeta. destruct (run_test_events O url acts cb s) as (evs & _ & -> & R).
  intros Hin. destruct R as [_ _ _ _ Hm _ _].
  assert (resp ∈ navigated evs) as Hr.
  { unfold navigated. apply list_elem_of_omap. by eexists. }
  rewrite Forall_forall in Hm. destruct (Hm _ Hr) as [H1 H2].
  split_and!; [done|by rewrite H2; destruct resp|].
  intros s0 p0.
  unfold navigate, mbind, M_bind, get_self, now, call_goto, modify_report, emit_to,
    mret, M_ret. cbn [self report trace].
  destruct (goto O _ _ _ _ _) as [[resp'|]|e'] eqn:Hg; cbn; split; try done.
  intros e [= ->]. eauto.
Qed.

End Isolation.

(** ** Concrete runs *)

(** Witness of C1: two runs that return.  The first is on a healthy browser
    with one click action and an observer; the second is on a browser whose
    page data carries the keys of the introspection script, so that the
    analysis raises. *)
Lemma run_test_success_witness :
  match run_test (healthy good_data) "https://example.org/"
          (Some [click_action "#go"]) (Some 7%nat) fresh with
  | (Ok r, _) => success r = bool_decide (length (errors r) = 0%nat)
  | (Raise _, _) => False
  end
  ∧ match run_test (healthy script_data) "https://example.org/" None None fresh with
    | (Ok r, _) => success r = bool_decide (length (errors r) = 0%nat)
    | (Raise _, _) => False
    end.
Proof.
  split.
  - destruct (run_test _ _ _ _ _) as [[r|e] s'] eqn:Hrun.
    + exact (run_test_success_iff_no_errors _ _ _ _ _ _ _ Hrun).
    + vm_compute in Hrun. discriminate Hrun.
  - destruct (run_test _ _ _ _ _) as [[r|e] s'] eqn:Hrun.
    + exact (run_test_success_iff_no_errors _ _ _ _ _ _ _ Hrun).
    + vm_compute in Hrun. discriminate Hrun.
Defined.


(** Witness of C7: a hover action. *)
Lemma unsupported_action_ignored_witness :
  let a : Action := {[ "type" := VStr "hover"; "selector" := VStr "#menu" ]} in
  let s := {| self := holding (BotConfig_new None None None None None) 4 3 2 1;
              report := BotReport_new false; trace := [] |} in
  supported a = false
  ∧ report (perform_action (healthy good_data) a (Some 7%nat) s).2 = report s.
Proof.
  cbn zeta. split; [vm_compute; reflexivity|].
  apply (unsupported_action_ignored (healthy good_data)). vm_compute. reflexivity.
Defined.

(** Witness of C8: a navigation without a response; the load time is
    there, the response time is a gap. *)
Lemma navigation_metrics_witness :
  let run := run_test closed_page "https://example.org/" None None fresh in
  let perf := performance (report run.2) in
  EvGoto 4%nat "https://example.org/" NetworkIdle 30000 (Ok None)
    ∈ events_of (run_test closed_page "https://example.org/" None None) fresh
  ∧ is_Some (perf !! "load_time") ∧ perf !! "response_time" = None.
Proof.
  cbn zeta.
  assert (EvGoto 4%nat "https://example.org/" NetworkIdle 30000 (Ok None)
            ∈ events_of (run_test closed_page "https://example.org/" None None) fresh) as H.
  { apply list_elem_of_lookup. exists 6%nat. vm_compute. reflexivity. }
  split; [exact H|].
  destruct (navigation_metrics closed_page _ None None fresh _ _ _ _ _ H) as (H1 & H2 & _).
  split; [exact H1|exact H2].
Defined.

(** The keys that the introspection script returns are not the field names
    of [PageAnalysis]: with them the analysis step raises, and the run ends
    with one critical error. *)
Example analysis_rejects_script_keys :
  PageAnalysis_new script_data
  = Raise (TypeError "__init__() got an unexpected keyword argument")
  ∧ err_type <$> errors (report (run_test (healthy script_data) "https://example.org/"
                                  None None fresh).2)
    = ["CRITICAL_ERROR"%string].
Proof. split; vm_compute; reflexivity. Qed.


(** One failing click among the custom actions: one error entry, and the
    action after it still leaves its result. *)
Example one_failing_action :
  let run := run_test failing_click "https://example.org/"
               (Some [click_action "#missing"; {[ "type" := VStr "wait" ]}]) None fresh in
  action_type <$> actions (report run.2) = ["SCROLL"; "WAIT"]%string
  ∧ err_type <$> errors (report run.2) = ["ACTION_ERROR"%string]
  ∧ err_action <$> errors (report run.2) = [Some (VStr "click")]
  ∧ success (report run.2) = false.
Proof. cbn zeta. split_and!; vm_compute; reflexivity. Qed.


(** Witness of C4: a page that closes before the analysis. *)
Lemma analysis_failure_is_critical_witness :
  let run := run_test closed_page "https://example.org/" None None fresh in
  let e := EngineError "Target page, context or browser has been closed" in
  EvEvaluate 4%nat ANALYSIS_SCRIPT (Raise e)
    ∈ events_of (run_test closed_page "https://example.org/" None None) fresh
  ∧ (∃ ts, errors (report run.2) = [critical_error e ts])
  ∧ success (report run.2) = false.
Proof.
  cbn zeta.
  assert (EvEvaluate 4%nat ANALYSIS_SCRIPT
            (Raise (EngineError "Target page, context or browser has been closed"))
            ∈ events_of (run_test closed_page "https://example.org/" None None) fresh) as H.
  { apply list_elem_of_lookup. exists 8%nat. vm_compute. reflexivity. }
  split; [exact H|].
  destruct (analysis_failure_is_critical closed_page _ None None fresh _ _ H)
    as (H1 & H2 & _).
  split; [exact H1|exact H2].
Defined.

(** C5, as stated, fails.  When the engine cannot start, no close call is
    made at all.  On a bot that was initialized before the run, the four
    close calls are made twice, for the old session and for the new one. *)
Lemma cleanup_sequence_counterexample :
  releases (events_of (run_test no_engine "https://example.org/" None None) fresh) = []
  ∧ (releases (events_of (run_test (healthy good_data) "https://example.org/" None None)
                 (initialize (healthy good_data) fresh).2)).*1
    = [RPage; RContext; RBrowser; REngine; RPage; RContext; RBrowser; REngine].
Proof. split; vm_compute; reflexivity. Qed.

End BotProofs.
